(** * EBR KPI deck generator: a shallow embedding of [app.py]

    The Streamlit script [app.py] is one top-to-bottom run per user
    interaction.  The embedding follows it in that order: the helper
    functions, the table loading loop, the chart mapping, the card queue kept
    in the session state, and the handler of the "Generate PPTX" button with
    its local closure [build_slide].

    Conventions of the model.
    - Python lists are [list]s; a slice [l[:k]] is [take k l] and [l[k:]] is
      [drop k l] (both clamp, as Python does); an index [l[i]] is the lookup
      [l !! i], and an index out of range raises.
    - Python exceptions are the [Raise] results of [result]; [try]/[except
      Exception] is [try_except].  The library calls that may raise are
      fallible operations of the class [Library]: the parsers, the column
      conversions, the construction of the chart and its formatting, opening
      and saving an image, and [st.image].  The other library calls (opening
      the template, adding a slide, a text box, a rectangle or a picture,
      setting the notes, saving the file, the widgets) are taken to return.
    - A slide is changed in place: what a call has put on the slide before it
      raises stays there.  [add_chart], which raises after it has added its
      shape when the formatting fails, returns the slide along with its
      result.
    - An exception that no [try] catches ends the run of the script: Streamlit
      shows it on the page, and the session state keeps what the run stored
      before.
    - The Streamlit calls that only display text (title, caption, write, info,
      markdown) are left out; [st.warning], [st.success],
      [st.download_button] and the exception shown for a run that was cut
      short are the events of the UI log.
    - A new slide holds the placeholders [add_slide] clones from its layout;
      the script adds its shapes behind them and never fills them.
    - A column label of a table is any Python value: its truth value and its
      text are the library's.
    - Lengths are in hundredths of an inch: every length literal of the script
      is a multiple of 0.05in, so its float arithmetic is exact here.
    - Strings are byte strings; [lower] lowers the ASCII letters. *)

From Stdlib Require Import ZArith String Ascii List Bool Lia.
From stdpp Require Import base option list strings.

Local Open Scope string_scope.
Local Open Scope list_scope.

(** ** Python values and exceptions *)

Module Py.

(** The outcome of a call that may raise: the value, or the exception's
    message (what [f"{e}"] prints in the handlers). *)
Inductive result (A : Type) : Type :=
| Ok (a : A)
| Raise (e : string).
Arguments Ok {A} a.
Arguments Raise {A} e.

#[export] Instance result_ret : MRet result := fun A a => Ok a.
#[export] Instance result_bind : MBind result := fun A B f r =>
  match r with
  | Ok a => f a
  | Raise e => Raise e
  end.

(** Truthiness of a string: [if s:]. *)
Definition truthy (s : string) : bool :=
  match s with
  | EmptyString => false
  | String _ _ => true
  end.

(** [str.lower] on ASCII letters. *)
Definition lower_char (c : ascii) : ascii :=
  let n := nat_of_ascii c in
  if (65 <=? n)%nat && (n <=? 90)%nat then ascii_of_nat (n + 32) else c.

Fixpoint lower (s : string) : string :=
  match s with
  | EmptyString => EmptyString
  | String c s' => String (lower_char c) (lower s')
  end.

(** [s.endswith(suffix)]. *)
Definition endswith (s suffix : string) : bool :=
  let n := String.length s in
  let k := String.length suffix in
  (k <=? n)%nat && String.eqb (substring (n - k) k s) suffix.

(** [sep.join(parts)]. *)
Definition join (sep : string) (parts : list string) : string :=
  String.concat sep parts.

End Py.
Export Py.

(** ** The data model *)

(** A queued card: the dict [{"headline": .., "value": .., "note": ..}] that
    the "Add card" button appends; all three keys are always present. *)
Record Card : Type := mkCard {
  headline : string;
  value : string;
  note : string
}.

(** An uploaded file ([UploadedFile]): its name and its bytes. *)
Record UploadedFile : Type := mkFile {
  file_name : string;
  file_bytes : string
}.

Definition RGB : Type := (Z * Z * Z)%type.

Definition PRIMARY : RGB := (23, 104, 172)%Z.
Definition LIGHT_BG : RGB := (245, 247, 250)%Z.

(** The types of the values the libraries hand back. *)
Class Media : Type := {
  Table : Type;          (* pandas.DataFrame *)
  Label : Type;          (* a column label of a DataFrame *)
  Json : Type;           (* what json.load returns *)
  Float : Type;          (* a float cell of a chart series *)
  PilImage : Type        (* PIL.Image.Image *)
}.

Section Model.
Context `{Media}.

(** One paragraph of a text frame, as [add_textbox] sets it up. *)
Record Paragraph : Type := mkPara {
  p_text : string;
  p_bold : bool;
  p_size : Z;            (* points *)
  p_level : nat;
  p_center : bool
}.

(** Left, top, width, height. *)
Definition Box : Type := (Z * Z * Z * Z)%type.

Inductive ChartType : Type :=
| LINE_MARKERS
| COLUMN_CLUSTERED.

(** The shapes of a slide: the placeholders that [add_slide] clones from the
    layout, by name, and the shapes the script adds. *)
Inductive Shape : Type :=
| Placeholder (name : string)
| AutoShape (autoshape_type_id : Z) (geom : Box) (fill line : RGB) (line_pt : Z)
| TextBox (geom : Box) (frame : list Paragraph)
| ChartFrame (ctype : ChartType) (geom : Box)
    (categories : list string) (series_name : Label) (values : list Float)
| Picture (left top : Z) (width height : option Z) (png : string).

Record Slide : Type := mkSlide {
  layout : nat;
  shapes : list Shape;
  notes : option string
}.

(** A presentation: the number of slide layouts of its theme, and its
    slides. *)
Record Presentation : Type := mkPrs {
  slide_layouts : nat;
  slides : list Slide
}.

(** The library operations the script calls.  Those with a [result] may
    raise; the others return.  [chart_format] stands for the five statements
    that format the chart once it is on the slide (lines 113-117: the legend,
    the gridlines of the two axes, the fill of the chart area), and
    [layout_placeholders] for the names of the placeholders of a layout of a
    presentation. *)
Class Library : Type := {
  read_csv : string -> result Table;                (* pd.read_csv *)
  read_excel : string -> result Table;              (* pd.read_excel *)
  json_load : string -> result Json;                (* json.load *)
  json_normalize : Json -> result Table;            (* pd.json_normalize *)
  columns : Table -> list Label;                    (* df.columns.tolist() *)
  label_truthy : Label -> bool;                     (* bool(c), as [if c] tests it *)
  label_str : Label -> string;                      (* str(c), as f"{c}" prints it *)
  column_as_str : Table -> Label -> result (list string);
                                                    (* df[c].astype(str).values *)
  column_as_float : Table -> Label -> result (list Float);
                                                    (* df[c].astype(float).values *)
  shapes_add_chart : ChartType -> list string -> Label -> list Float -> result unit;
                                                    (* slide.shapes.add_chart *)
  chart_format : ChartType -> list string -> Label -> list Float -> result unit;
                                                    (* chart.has_legend = False, ... *)
  image_open_rgb : string -> result PilImage;       (* Image.open(f).convert("RGB") *)
  image_save_png : PilImage -> result string;       (* img.save(buf, format="PNG") *)
  image_crop : PilImage -> Box -> PilImage;         (* img.crop(bbox) *)
  st_image : UploadedFile -> result unit;           (* st.image(f, caption=f.name) *)
  open_presentation : string -> Presentation;       (* Presentation(BytesIO(bytes)) *)
  default_presentation : Presentation;              (* Presentation() *)
  layout_placeholders : Presentation -> nat -> list string
                                       (* prs.slide_layouts[i].placeholders *)
}.

Context `{Library}.

(** ** The UI log and the monad of the script *)

Inductive UiEvent : Type :=
| Warning (msg : string)
| Success (msg : string)
| DownloadButton (label : string) (data : Presentation) (file_name mime : string)
| Uncaught (msg : string).   (* the exception Streamlit shows when a run is cut short *)

(** A step of the script: it appends to the UI log and returns or raises. *)
Definition St (A : Type) : Type := list UiEvent -> result A * list UiEvent.

#[export] Instance St_ret : MRet St := fun A a log => (Ok a, log).
#[export] Instance St_bind : MBind St := fun A B f m log =>
  match m log with
  | (Ok a, log') => f a log'
  | (Raise e, log') => (Raise e, log')
  end.

Definition lift {A : Type} (r : result A) : St A := fun log => (r, log).

Definition st_warning (msg : string) : St unit :=
  fun log => (Ok tt, log ++ [Warning msg]).

Definition st_success (msg : string) : St unit :=
  fun log => (Ok tt, log ++ [Success msg]).

Definition st_download_button (label : string) (data : Presentation)
    (name mime : string) : St unit :=
  fun log => (Ok tt, log ++ [DownloadButton label data name mime]).

(** [try: body  except Exception as e: handler(e)]. *)
Definition try_except {A : Type} (body : St A) (handler : string -> St A) : St A :=
  fun log =>
    match body log with
    | (Ok a, log') => (Ok a, log')
    | (Raise e, log') => handler e log'
    end.

(** ** Helpers *)

(** The body of the [try] of [load_table] (lines 30-36): it returns a table
    ([Some]), falls off its end ([None]) when no extension matches, or
    raises. *)
Definition read_table (file : UploadedFile) : result (option Table) :=
  let name := lower (file_name file) in
  if endswith name ".csv" then
    t ← read_csv (file_bytes file); mret (Some t)
  else if endswith name ".xlsx" || endswith name ".xls" then
    t ← read_excel (file_bytes file); mret (Some t)
  else if endswith name ".json" then
    data ← json_load (file_bytes file);
    t ← json_normalize data; mret (Some t)
  else mret None.

(** [load_table]: what the [try] statement hands on is [Some r] when the body
    or the handler returned [r], and [None] when the body fell off its end,
    which leads to the "unsupported" warning. *)
Definition load_table (file : UploadedFile) : St (option Table) :=
  returned ← try_except
    (r ← lift (read_table file); mret (Some <$> r))
    (fun e =>
       st_warning ("Could not read " +:+ file_name file +:+ ": " +:+ e);;
       mret (Some None));
  match returned with
  | Some r => mret r
  | None =>
      st_warning ("Unsupported table file: " +:+ file_name file);;
      mret None
  end.

(** The extension tests of [load_table], on the lower-cased name. *)
Definition supported_extension (name : string) : bool :=
  let name := lower name in
  endswith name ".csv" || endswith name ".xlsx" || endswith name ".xls"
  || endswith name ".json".

Definition safe_color (rgb_tuple : RGB) : RGB :=
  let '(r, g, b) := rgb_tuple in (r, g, b).

(** [add_textbox(shape, title, subtitle, center, font_size, bold)]: the
    paragraphs of the text frame. *)
Definition add_textbox (title : string) (subtitle : option string)
    (center : bool) (font_size : Z) (bold : bool) : list Paragraph :=
  [mkPara title bold font_size 0 center] ++
  match subtitle with
  | Some sub =>
      if truthy sub
      then [mkPara sub false (Z.max 12 (font_size - 4)) 1 center]
      else []
  | None => []
  end.

(** [slide.shapes.add_*]: new shapes go behind the ones already there. *)
Definition add_shapes (slide : Slide) (new : list Shape) : Slide :=
  mkSlide (layout slide) (shapes slide ++ new) (notes slide).

(** [add_kpi_card]: the rectangle, the headline and value boxes, and the note
    box when the note is not empty; appended to the slide's shapes. *)
Definition add_kpi_card (slide : Slide) (left_in top_in width_in height_in : Z)
    (headline value note : string) (accent : RGB) : Slide :=
  let shape :=
    AutoShape 1 (left_in, top_in, width_in, height_in)
      (safe_color (255, 255, 255)%Z) (safe_color accent) 2 in
  let tx_box :=
    TextBox (left_in + 25, top_in + 20, width_in - 50, 50)%Z
      (add_textbox headline None false 16 true) in
  let val_box :=
    TextBox (left_in + 25, top_in + 70, width_in - 50, 80)%Z
      (add_textbox value None false 24 true) in
  let note_box :=
    if truthy note
    then [TextBox (left_in + 25, top_in + 140, width_in - 50, height_in - 160)%Z
            (add_textbox note None false 12 false)]
    else [] in
  add_shapes slide ([shape; tx_box; val_box] ++ note_box).

(** [add_chart]: the two column conversions, the chart type, the chart shape
    (line 112) and its formatting (lines 113-117); each of the four library
    steps may raise.  The slide is returned along with the result: when the
    formatting raises, the chart is on the slide already. *)
Definition add_chart (slide : Slide) (left top width height : Z) (df : Table)
    (x_col y_col : Label) (chart_type : string) (series_name : Label)
    : result unit * Slide :=
  match column_as_str df x_col with
  | Raise e => (Raise e, slide)
  | Ok categories =>
      match column_as_float df y_col with
      | Raise e => (Raise e, slide)
      | Ok values =>
          let ctype :=
            if String.eqb chart_type "line"
            then LINE_MARKERS else COLUMN_CLUSTERED in
          match shapes_add_chart ctype categories series_name values with
          | Raise e => (Raise e, slide)
          | Ok _ =>
              let slide :=
                add_shapes slide
                  [ChartFrame ctype (left, top, width, height)
                     categories series_name values] in
              (chart_format ctype categories series_name values, slide)
          end
      end
  end.

(** [Inches(x) if x else None]: no length for [None] and for zero. *)
Definition inches_if (x : option Z) : option Z :=
  match x with
  | Some v => if (v =? 0)%Z then None else Some v
  | None => None
  end.

(** [add_screenshot]: the image is saved as PNG and added as a picture. *)
Definition add_screenshot (slide : Slide) (img : PilImage) (left_in top_in : Z)
    (width_in height_in : option Z) : result Slide :=
  buf ← image_save_png img;
  mret (add_shapes slide
          [Picture left_in top_in (inches_if width_in) (inches_if height_in) buf]).

Definition crop_image (img : PilImage) (bbox : Box) : PilImage :=
  image_crop img bbox.

Definition add_speaker_notes (slide : Slide) (text : string) : Slide :=
  mkSlide (layout slide) (shapes slide) (Some text).

Definition create_presentation (base_template_bytes : option string)
    : Presentation :=
  match base_template_bytes with
  | Some bytes => if truthy bytes then open_presentation bytes
                  else default_presentation
  | None => default_presentation
  end.

(** ** The inputs of one run of the script *)

(** What the sidebar and the main page hand to one run: the uploads, the
    options, the choices made in the select boxes (as positions in their
    option lists), the texts of the card form, the two buttons, and the clock
    reading formatted as [strftime('%Y%m%d_%H%M')].  The colour picker's
    "#rrggbb" value is taken as the triple the handler parses it into. *)
Record Inputs : Type := mkInputs {
  template_file : option UploadedFile;
  data_files : list UploadedFile;
  screenshots : list UploadedFile;
  title_text : string;
  customer : string;
  date_range : string;
  purpose : string;
  max_slides : Z;
  accent_color : RGB;
  include_speaker_notes : bool;
  enable_auto_crop : bool;
  chart_type : string;
  table_choice : nat;
  x_choice : nat;
  y_choice : nat;
  form_headline : string;
  form_value : string;
  form_note : string;
  add_card : bool;
  generate_clicked : bool;
  now : string
}.

(** The inputs with the auto-crop box set to [b], all else as it is. *)
Definition with_auto_crop (b : bool) (inp : Inputs) : Inputs :=
  {| template_file := template_file inp;
     data_files := data_files inp;
     screenshots := screenshots inp;
     title_text := title_text inp;
     customer := customer inp;
     date_range := date_range inp;
     purpose := purpose inp;
     max_slides := max_slides inp;
     accent_color := accent_color inp;
     include_speaker_notes := include_speaker_notes inp;
     enable_auto_crop := b;
     chart_type := chart_type inp;
     table_choice := table_choice inp;
     x_choice := x_choice inp;
     y_choice := y_choice inp;
     form_headline := form_headline inp;
     form_value := form_value inp;
     form_note := form_note inp;
     add_card := add_card inp;
     generate_clicked := generate_clicked inp;
     now := now inp |}.

(** [st.selectbox(label, options)]: the chosen option, [None] when there are
    no options.  The widget offers no choice outside the list; the model maps
    such a position to the default index 0. *)
Definition selectbox {A : Type} (options : list A) (choice : nat) : option A :=
  match options !! choice with
  | Some x => Some x
  | None => options !! 0%nat
  end.

(** ** Loading the tables (lines 160-165) *)

Fixpoint load_tables (files : list UploadedFile) (tables : list Table)
    : St (list Table) :=
  match files with
  | [] => mret tables
  | f :: rest =>
      df ← load_table f;
      load_tables rest
        match df with
        | Some t => tables ++ [t]
        | None => tables
        end
  end.

(** ** The chart mapping (lines 170-180) *)

Definition chart_mapping (inp : Inputs) (tables : list Table)
    : option Table * option Label * option Label :=
  match tables with
  | [] => (None, None, None)
  | _ :: _ =>
      let df_idx := selectbox (seq 0 (length tables)) (table_choice inp) in
      match df_idx ≫= (fun i => tables !! i) with
      | Some chart_df =>
          (Some chart_df,
           selectbox (columns chart_df) (x_choice inp),
           selectbox (columns chart_df) (y_choice inp))
      | None => (None, None, None)
      end
  end.

(** The dict [chart_cfg]; its ["df"] entry is never [None]. *)
Record ChartCfg : Type := mkCfg {
  cfg_df : Table;
  cfg_x : Label;
  cfg_y : Label;
  cfg_type : string;
  cfg_series : Label
}.

(** ** The card queue (lines 193-198) *)

Definition form_card (inp : Inputs) : Card :=
  mkCard (form_headline inp) (form_value inp) (form_note inp).

Definition queue_card (inp : Inputs) (cards : list Card) : list Card :=
  if add_card inp then cards ++ [form_card inp] else cards.

(** ** The "Generate PPTX" handler (lines 215-317) *)

Definition nl : string := String (ascii_of_nat 10) EmptyString.

Definition grid_positions : list (Z * Z) :=
  [(50, 150); (650, 150);
   (50, 400); (650, 400)]%Z.

Definition card_w : Z := 550.
Definition card_h : Z := 220.

(** [for idx, c in enumerate(cards_subset[:4])]: the loop body looks the grid
    position up and raises [IndexError] when there is none. *)
Fixpoint card_loop (accent_rgb : RGB) (idx : nat) (cs : list Card)
    (slide : Slide) : result Slide :=
  match cs with
  | [] => Ok slide
  | c :: rest =>
      match grid_positions !! idx with
      | Some (left_in, top_in) =>
          card_loop accent_rgb (S idx) rest
            (add_kpi_card slide left_in top_in card_w card_h
               (headline c) (value c) (note c) accent_rgb)
      | None => Raise "list index out of range"
      end
  end.

(** [for img in imgs_subset[:1]]: each image is embedded under its own
    [try]. *)
Fixpoint image_loop (imgs : list UploadedFile) (slide : Slide) (placed : nat)
    : St (Slide * nat) :=
  match imgs with
  | [] => mret (slide, placed)
  | img :: rest =>
      '(slide', placed') ← try_except
        (pil ← lift (image_open_rgb (file_bytes img));
         slide' ← lift (add_screenshot slide pil 50 630 (Some 1150%Z) None);
         mret (slide', S placed))
        (fun e =>
           st_warning ("Could not embed " +:+ file_name img +:+ ": " +:+ e);;
           mret (slide, placed));
      image_loop rest slide' placed'
  end.

Definition notes_line (c : Card) : string :=
  "- " +:+ headline c +:+ ": " +:+ value c +:+ " — " +:+ note c.

(** Lines 259-267 of [build_slide]: the optional chart, under its [try].  The
    handler warns and goes on with the slide as [add_chart] left it. *)
Definition chart_block (slide : Slide) (chart_cfg : option ChartCfg) : St Slide :=
  match chart_cfg with
  | Some cfg =>
      let '(returned, slide) :=
        add_chart slide 50 630 1150 230 (cfg_df cfg) (cfg_x cfg)
          (cfg_y cfg) (cfg_type cfg) (cfg_series cfg) in
      match returned with
      | Ok _ => mret slide
      | Raise e => st_warning ("Chart could not be added: " +:+ e);; mret slide
      end
  | None => mret slide
  end.

(** Lines 281-287 of [build_slide]: the speaker notes. *)
Definition notes_block (inp : Inputs) (slide : Slide) (cards_subset : list Card)
    (chart_cfg : option ChartCfg) : Slide :=
  if include_speaker_notes inp then
    let notes_lines :=
      map notes_line (take 4 cards_subset) ++
      match chart_cfg with
      | Some cfg =>
          ["- Chart: " +:+ cfg_type cfg +:+ " of " +:+ label_str (cfg_y cfg) +:+
           " by " +:+ label_str (cfg_x cfg)]
      | None => []
      end in
    add_speaker_notes slide (join nl notes_lines)
  else slide.

(** Lines 232-241 of [build_slide]: the title box and the subtitle box. *)
Definition header_shapes (inp : Inputs) (title_str : string) : list Shape :=
  let title_box :=
    TextBox (50, 40, 1200, 60)%Z (add_textbox title_str None false 28 true) in
  let subtitle :=
    (if truthy (customer inp) then ["Customer: " +:+ customer inp] else []) ++
    (if truthy (date_range inp) then ["Range: " +:+ date_range inp] else []) ++
    (if truthy (purpose inp) then ["Purpose: " +:+ purpose inp] else []) in
  let sub_box :=
    TextBox (50, 100, 1200, 40)%Z
      (add_textbox (join " • " subtitle) None false 12 false) in
  [title_box; sub_box].

(** Line 230: the shapes of the slide that [add_slide] makes, the placeholders
    of the layout.  The layouts of [prs] are those of the presentation that
    line 219 made from the template upload, whatever slides were added
    since. *)
Definition new_slide_shapes (inp : Inputs) (layout_idx : nat) : list Shape :=
  map Placeholder
    (layout_placeholders (create_presentation (file_bytes <$> template_file inp))
       layout_idx).

(** The shapes of a slide when the card loop starts: the placeholders, the
    title box and the subtitle box. *)
Definition start_shapes (inp : Inputs) (layout_idx : nat) (title_str : string)
    : list Shape :=
  new_slide_shapes inp layout_idx ++ header_shapes inp title_str.

(** The closure [build_slide] reads [customer], [date_range], [purpose] and
    [include_speaker_notes] from the inputs, and [layout_idx], [accent_rgb]
    and [prs] from the handler.  The script appends the new slide to
    [prs.slides] first and fills it afterwards; the model fills it and then
    appends it, which is the same presentation whenever the call returns. *)
Definition build_slide (inp : Inputs) (layout_idx : nat) (accent_rgb : RGB)
    (prs : Presentation) (title_str : string) (cards_subset : list Card)
    (imgs_subset : list UploadedFile) (chart_cfg : option ChartCfg)
    : St Presentation :=
  let slide := mkSlide layout_idx (new_slide_shapes inp layout_idx) None in
  let slide := add_shapes slide (header_shapes inp title_str) in
  slide ← lift (card_loop accent_rgb 0 (take 4 cards_subset) slide);
  slide ← chart_block slide chart_cfg;
  '(slide, placed) ← image_loop (take 1 imgs_subset) slide 0;
  let slide := notes_block inp slide cards_subset chart_cfg in
  mret (mkPrs (slide_layouts prs) (slides prs ++ [slide])).

(** Line 227. *)
Definition use_two_slides (total_cards total_imgs : nat) (max_slides : Z) : bool :=
  (4 <? total_cards + total_imgs)%nat && (2 <=? max_slides)%Z.

(** Lines 290-296: the subsets of the two slides. *)
Definition split_assets {A B : Type} (two : bool) (cards : list A) (imgs : list B)
    : (list A * list A) * (list B * list B) :=
  if two then
    let half_cards := Nat.max 4 ((length cards + 1) / 2) in
    let half_imgs := Nat.max 1 ((length imgs + 1) / 2) in
    ((take half_cards cards, drop half_cards cards),
     (take half_imgs imgs, drop half_imgs imgs))
  else ((cards, []), (imgs, [])).

(** Lines 299-301: [if chart_df is not None and x_col and y_col].  A column
    choice counts when it is there and its label is true for Python: neither
    [None], nor the empty string, nor the number 0. *)
Definition make_chart_cfg (inp : Inputs)
    (mapping : option Table * option Label * option Label) : option ChartCfg :=
  match mapping with
  | (Some chart_df, Some x_col, Some y_col) =>
      if label_truthy x_col && label_truthy y_col
      then Some (mkCfg chart_df x_col y_col (chart_type inp) y_col)
      else None
  | _ => None
  end.

Definition generate_pptx (inp : Inputs) (cards : list Card)
    (mapping : option Table * option Label * option Label)
    : St Presentation :=
  let accent_rgb := accent_color inp in
  let prs := create_presentation (file_bytes <$> template_file inp) in
  let layout_idx := if (6 <? slide_layouts prs)%nat then 6%nat else 0%nat in
  let total_cards := length cards in
  let total_imgs := length (screenshots inp) in
  let two := use_two_slides total_cards total_imgs (max_slides inp) in
  let '((cards1, cards2), (imgs1, imgs2)) :=
    split_assets two cards (screenshots inp) in
  let chart_cfg := make_chart_cfg inp mapping in
  prs ← build_slide inp layout_idx accent_rgb prs (title_text inp)
          cards1 imgs1 chart_cfg;
  prs ←
    (if two
     then build_slide inp layout_idx accent_rgb prs
            (title_text inp +:+ " (cont.)") cards2 imgs2 None
     else mret prs);
  st_success "PPTX generated successfully.";;
  st_download_button "⬇️ Download EBR Deck (.pptx)" prs
    ("EBR_KPI_Deck_" +:+ now inp +:+ ".pptx")
    "application/vnd.openxmlformats-officedocument.presentationml.presentation";;
  mret prs.

(** ** One run of the script *)

(** Lines 207-210: the preview of the uploaded screenshots.  [st.image] opens
    each of them, under no [try]. *)
Fixpoint preview (imgs : list UploadedFile) : result unit :=
  match imgs with
  | [] => Ok tt
  | f :: rest => st_image f;; preview rest
  end.

(** The statements of the script that may end the run, in their order: the
    table loop, the chart mapping, the preview of the screenshots and the
    handler of the button.  [cards] is the queue of the session state as line
    198 has left it. *)
Definition script_body (inp : Inputs) (cards : list Card)
    : St (option Presentation) :=
  tables ← load_tables (data_files inp) [];
  let mapping := chart_mapping inp tables in
  lift (preview (screenshots inp));;
  if generate_clicked inp then
    prs ← generate_pptx inp cards mapping;
    mret (Some prs)
  else mret None.

(** The run takes the card queue of the session state and returns the queue
    it leaves there, together with the presentation when the "Generate PPTX"
    button was pressed and the handler was reached.  The card of the form is
    queued (line 198) before the first statement that can raise uncaught (the
    preview, line 210): a run that is cut short shows its exception, gives no
    presentation, and leaves the queue with that card. *)
Definition script (inp : Inputs) (session_cards : list Card)
    : St (list Card * option Presentation) :=
  fun log =>
    let cards := queue_card inp session_cards in
    match script_body inp cards log with
    | (Ok out, log') => (Ok (cards, out), log')
    | (Raise e, log') => (Ok (cards, None), log' ++ [Uncaught e])
    end.

(** A session: the runs of the script one after the other, from the queue the
    session state holds; the result of the last run and the whole UI log. *)
Fixpoint session (runs : list Inputs) (session_cards : list Card)
    : St (list Card * option Presentation) :=
  match runs with
  | [] => mret (session_cards, None)
  | inp :: rest =>
      '(cards, out) ← script inp session_cards;
      match rest with
      | [] => mret (cards, out)
      | _ :: _ => session rest cards
      end
  end.

(** ** Reading a slide back

    What a viewer of the generated slide sees: the card visuals (a rectangle
    followed by its headline box, its value box and, when there is one, its
    note box), the pictures and the charts. *)

Fixpoint cards_of_shapes (l : list Shape) : list Card :=
  match l with
  | [] => []
  | AutoShape _ _ _ _ _ :: rest =>
      match rest with
      | TextBox _ [h] :: TextBox _ [v] :: rest2 =>
          match rest2 with
          | TextBox _ [n] :: rest3 =>
              mkCard (p_text h) (p_text v) (p_text n) :: cards_of_shapes rest3
          | _ => mkCard (p_text h) (p_text v) "" :: cards_of_shapes rest2
          end
      | _ => cards_of_shapes rest
      end
  | _ :: rest => cards_of_shapes rest
  end.

Definition is_picture (sh : Shape) : bool :=
  match sh with
  | Picture _ _ _ _ _ => true
  | _ => false
  end.

Definition is_chart (sh : Shape) : bool :=
  match sh with
  | ChartFrame _ _ _ _ _ => true
  | _ => false
  end.

Definition rendered_cards (s : Slide) : list Card := cards_of_shapes (shapes s).
Definition pictures (s : Slide) : list Shape := List.filter is_picture (shapes s).
Definition charts (s : Slide) : list Shape := List.filter is_chart (shapes s).

(** The slides a generation request added to the base presentation. *)
Definition generated_slides (inp : Inputs) (prs : Presentation) : list Slide :=
  drop (length (slides (create_presentation (file_bytes <$> template_file inp))))
    (slides prs).

Definition is_warning (ev : UiEvent) : bool :=
  match ev with
  | Warning _ => true
  | _ => false
  end.

(** A run of shapes that does not begin with a text box: what may follow the
    card visuals on a slide (nothing, a chart, a picture). *)
Definition no_leading_textbox (post : list Shape) : Prop :=
  match post with
  | TextBox _ _ :: _ => False
  | _ => True
  end.

(** The end of the handler's log: the success message and the download button. *)
Definition download (inp : Inputs) (prs : Presentation) : list UiEvent :=
  [Success "PPTX generated successfully.";
   DownloadButton "⬇️ Download EBR Deck (.pptx)" prs
     ("EBR_KPI_Deck_" +:+ now inp +:+ ".pptx")
     "application/vnd.openxmlformats-officedocument.presentationml.presentation"].

(** How the chart block of a slide ends: no chart was mapped; the chart was
    added; [add_chart] raised before it had added the chart, and the warning
    took its place; or [add_chart] raised after it had added the chart, and
    the slide keeps the chart along with the warning. *)
Inductive ChartOutcome (chart_cfg : option ChartCfg)
    : list Shape -> list UiEvent -> Prop :=
| chart_none :
    chart_cfg = None -> ChartOutcome chart_cfg [] []
| chart_added cfg sh :
    chart_cfg = Some cfg ->
    is_chart sh = true ->
    (forall s, add_chart s 50 630 1150 230 (cfg_df cfg) (cfg_x cfg) (cfg_y cfg)
                 (cfg_type cfg) (cfg_series cfg) = (Ok tt, add_shapes s [sh])) ->
    ChartOutcome chart_cfg [sh] []
| chart_failed cfg e :
    chart_cfg = Some cfg ->
    (forall s, add_chart s 50 630 1150 230 (cfg_df cfg) (cfg_x cfg) (cfg_y cfg)
                 (cfg_type cfg) (cfg_series cfg) = (Raise e, s)) ->
    ChartOutcome chart_cfg [] [Warning ("Chart could not be added: " +:+ e)]
| chart_kept cfg sh e :
    chart_cfg = Some cfg ->
    is_chart sh = true ->
    (forall s, add_chart s 50 630 1150 230 (cfg_df cfg) (cfg_x cfg) (cfg_y cfg)
                 (cfg_type cfg) (cfg_series cfg) = (Raise e, add_shapes s [sh])) ->
    ChartOutcome chart_cfg [sh] [Warning ("Chart could not be added: " +:+ e)].

(** The embedding of one image: opening it as RGB, then saving it as PNG. *)
Definition embed (img : UploadedFile) : result string :=
  image_open_rgb (file_bytes img) ≫= image_save_png.

(** How the image block of a slide ends: there was no image, the first image
    was placed, or embedding it raised and the warning took its place. *)
Inductive ImageOutcome (imgs_subset : list UploadedFile)
    : list Shape -> list UiEvent -> Prop :=
| image_none :
    imgs_subset = [] -> ImageOutcome imgs_subset [] []
| image_placed img rest png :
    imgs_subset = img :: rest ->
    embed img = Ok png ->
    ImageOutcome imgs_subset [Picture 50 630 (Some 1150%Z) None png] []
| image_failed img rest e :
    imgs_subset = img :: rest ->
    embed img = Raise e ->
    ImageOutcome imgs_subset []
      [Warning ("Could not embed " +:+ file_name img +:+ ": " +:+ e)].

(** A slide as [build_slide] leaves it, with the warnings it gave: the
    placeholders of the layout, the header, the shapes of the card loop, the
    outcome of the chart block and of the image block, and the notes. *)
Definition Built (inp : Inputs) (layout_idx : nat) (accent_rgb : RGB)
    (title_str : string) (cards_subset : list Card)
    (imgs_subset : list UploadedFile) (chart_cfg : option ChartCfg)
    (slide : Slide) (warnings : list UiEvent) : Prop :=
  exists added cpost ipost cw iw,
    card_loop accent_rgb 0 (take 4 cards_subset)
      (mkSlide layout_idx (start_shapes inp layout_idx title_str) None)
      = Ok (mkSlide layout_idx
              (start_shapes inp layout_idx title_str ++ added) None)
    /\ cards_of_shapes (added ++ cpost ++ ipost) = take 4 cards_subset
    /\ List.filter is_picture added = []
    /\ List.filter is_chart added = []
    /\ ChartOutcome chart_cfg cpost cw
    /\ ImageOutcome imgs_subset ipost iw
    /\ slide = notes_block inp
                 (mkSlide layout_idx
                    (start_shapes inp layout_idx title_str
                     ++ added ++ cpost ++ ipost) None)
                 cards_subset chart_cfg
    /\ warnings = cw ++ iw.

(** ** Further readings of the inputs and of a slide *)

(** [format_func=lambda i: data_files[i].name] of the "Select a table" box
    (line 174): the label shown for the option [i]. *)
Definition table_label (inp : Inputs) (i : nat) : result string :=
  match data_files inp !! i with
  | Some f => Ok (file_name f)
  | None => Raise "list index out of range"
  end.

(** The inputs with other screenshots, all else as it is. *)
Definition with_screenshots (imgs : list UploadedFile) (inp : Inputs) : Inputs :=
  {| template_file := template_file inp;
     data_files := data_files inp;
     screenshots := imgs;
     title_text := title_text inp;
     customer := customer inp;
     date_range := date_range inp;
     purpose := purpose inp;
     max_slides := max_slides inp;
     accent_color := accent_color inp;
     include_speaker_notes := include_speaker_notes inp;
     enable_auto_crop := enable_auto_crop inp;
     chart_type := chart_type inp;
     table_choice := table_choice inp;
     x_choice := x_choice inp;
     y_choice := y_choice inp;
     form_headline := form_headline inp;
     form_value := form_value inp;
     form_note := form_note inp;
     add_card := add_card inp;
     generate_clicked := generate_clicked inp;
     now := now inp |}.

(** The inputs with a template upload, all else as it is. *)
Definition with_template (file : UploadedFile) (inp : Inputs) : Inputs :=
  {| template_file := Some file;
     data_files := data_files inp;
     screenshots := screenshots inp;
     title_text := title_text inp;
     customer := customer inp;
     date_range := date_range inp;
     purpose := purpose inp;
     max_slides := max_slides inp;
     accent_color := accent_color inp;
     include_speaker_notes := include_speaker_notes inp;
     enable_auto_crop := enable_auto_crop inp;
     chart_type := chart_type inp;
     table_choice := table_choice inp;
     x_choice := x_choice inp;
     y_choice := y_choice inp;
     form_headline := form_headline inp;
     form_value := form_value inp;
     form_note := form_note inp;
     add_card := add_card inp;
     generate_clicked := generate_clicked inp;
     now := now inp |}.

Definition is_textbox (sh : Shape) : bool :=
  match sh with
  | TextBox _ _ => true
  | _ => false
  end.

(** The title the script gives a slide: the text of the first text box of the
    slide.  The placeholders of the layout come before it; they are no text
    boxes, and the script leaves them empty. *)
Definition slide_title (s : Slide) : option string :=
  match List.filter is_textbox (shapes s) with
  | TextBox _ (p :: _) :: _ => Some (p_text p)
  | _ => None
  end.

(** The rectangle of a card visual. *)
Definition rect_geom (sh : Shape) : option Box :=
  match sh with
  | AutoShape _ g _ _ _ => Some g
  | _ => None
  end.

(** The rectangles of the card visuals of a slide, in the order they were
    added. *)
Definition card_boxes (s : Slide) : list Box := omap rect_geom (shapes s).

Definition is_rectangle (sh : Shape) : bool :=
  match sh with
  | AutoShape _ _ _ _ _ => true
  | _ => false
  end.

(** The rectangles of a slide: the frames of its card visuals. *)
Definition rectangles (s : Slide) : list Shape :=
  List.filter is_rectangle (shapes s).

(** [inner] is a box, of a width and a height that are not negative, and
    lies within [outer]. *)
Definition inside (inner outer : Box) : Prop :=
  let '(l, t, w, h) := inner in
  let '(l', t', w', h') := outer in
  (0 <= w /\ 0 <= h
   /\ l' <= l /\ t' <= t /\ l + w <= l' + w' /\ t + h <= t' + h')%Z.

(** Two boxes that share no area: one ends before the other begins,
    horizontally or vertically. *)
Definition apart (a b : Box) : Prop :=
  let '(l, t, w, h) := a in
  let '(l', t', w', h') := b in
  (l + w <= l' \/ l' + w' <= l \/ t + h <= t' \/ t' + h' <= t)%Z.

(** The rectangles of the four grid slots. *)
Definition grid_boxes : list Box :=
  map (fun p : Z * Z => (p.1, p.2, card_w, card_h)) grid_positions.

(** The line of the speaker notes about the chart. *)
Definition chart_note (chart_cfg : option ChartCfg) : list string :=
  match chart_cfg with
  | Some cfg =>
      ["- Chart: " +:+ cfg_type cfg +:+ " of " +:+ label_str (cfg_y cfg) +:+
       " by " +:+ label_str (cfg_x cfg)]
  | None => []
  end.

(** The type of chart that [add_chart] draws for a chart type. *)
Definition chart_kind (chart_type : string) : ChartType :=
  if String.eqb chart_type "line" then LINE_MARKERS else COLUMN_CLUSTERED.

(** The chart of a configuration, as [build_slide] places it. *)
Definition chart_of (cfg : ChartCfg) (categories : list string)
    (values : list Float) : Shape :=
  ChartFrame (chart_kind (cfg_type cfg)) (50, 630, 1150, 230)%Z
    categories (cfg_series cfg) values.

(** Python's truth value of a column choice, [None] when the select box had
    no option. *)
Definition choice_truthy (choice : option Label) : bool :=
  match choice with
  | Some c => label_truthy c
  | None => false
  end.

(** The warning of the chart block (line 267), from the way [add_chart]
    ended. *)
Definition chart_warning (returned : result unit) : list UiEvent :=
  match returned with
  | Ok _ => []
  | Raise e => [Warning ("Chart could not be added: " +:+ e)]
  end.

(** The warning of line 278 for an image. *)
Definition embed_warning (img : UploadedFile) (e : string) : UiEvent :=
  Warning ("Could not embed " +:+ file_name img +:+ ": " +:+ e).

End Model.

(** ** A sample library

    A small instance of the library interface, on which the script runs by
    computation: a table is the list of its column names, a column label is a
    string, a float is an integer, an image is its bytes.  Empty files do not
    parse, no Excel file does, and a column named "bad" is not numeric.  An
    image with no bytes can neither be shown nor opened; the image "PNG cut"
    is shown, but cannot be loaded in full.  The chart is drawn, and its
    formatting raises: [chart.chart_area] is no attribute of a chart.  The
    default presentation has eleven layouts, the seventh of them blank; a
    template has two, each with a title placeholder. *)
Module Sample.

#[export] Instance media : Media := {|
  Table := list string;
  Label := string;
  Json := string;
  Float := Z;
  PilImage := string
|}.

#[export] Instance library : Library := {|
  read_csv := fun b =>
    if truthy b then Ok [b] else Raise "No columns to parse from file";
  read_excel := fun _ => Raise "Excel file format cannot be determined";
  json_load := fun b => if truthy b then Ok b else Raise "Expecting value";
  json_normalize := fun j => Ok [j];
  columns := fun t => t;
  label_truthy := truthy;
  label_str := fun c => c;
  column_as_str := fun _ c => Ok [c];
  column_as_float := fun _ c =>
    if String.eqb c "bad"
    then Raise "could not convert string to float"
    else Ok [0%Z];
  shapes_add_chart := fun _ _ _ _ => Ok tt;
  chart_format := fun _ _ _ _ =>
    Raise "'Chart' object has no attribute 'chart_area'";
  image_open_rgb := fun b =>
    if truthy b
    then if String.eqb b "PNG cut" then Raise "image file is truncated" else Ok b
    else Raise "cannot identify image file";
  image_save_png := fun i => Ok i;
  image_crop := fun i _ => i;
  st_image := fun f =>
    if truthy (file_bytes f) then Ok tt else Raise "cannot identify image file";
  open_presentation := fun _ => mkPrs 2 [];
  default_presentation := mkPrs 11 [];
  layout_placeholders := fun _ i => if (i =? 6)%nat then [] else ["Title 1"]
|}.

(** The inputs of a run with the sidebar defaults, but for the uploads, the
    max slide count, the headline of the card form and the two buttons. *)
Definition inputs (files imgs : list UploadedFile) (max : Z) (head : string)
    (add generate : bool) : Inputs := {|
  template_file := None;
  data_files := files;
  screenshots := imgs;
  title_text := "Executive KPI Summary";
  customer := "";
  date_range := "Last 3 months";
  purpose := "C-level review";
  max_slides := max;
  accent_color := (23, 104, 172)%Z;
  include_speaker_notes := true;
  enable_auto_crop := true;
  chart_type := "bar";
  table_choice := 0;
  x_choice := 0;
  y_choice := 0;
  form_headline := head;
  form_value := "90%";
  form_note := "";
  add_card := add;
  generate_clicked := generate;
  now := "20240101_0900"
|}.

(** A run that queues the card with headline [k]; that card. *)
Definition add (k : string) : Inputs := inputs [] [] 2 k true false.
Definition card (k : string) : Card := mkCard k "90%" "".

(** A run that presses "Generate PPTX". *)
Definition generate (max : Z) (imgs : list UploadedFile) : Inputs :=
  inputs [] imgs max "Tracking Rate" false true.

Definition keys10 : list string :=
  ["1"; "2"; "3"; "4"; "5"; "6"; "7"; "8"; "9"; "10"].
Definition cards10 : list Card := map card keys10.

Definition no_mapping : option Table * option Label * option Label :=
  (None, None, None).

(** Uploads that fail: a CSV file and a screenshot with no bytes, a screenshot
    that is cut off, and a chart over the column "bad"; and a template. *)
Definition broken_csv : UploadedFile := mkFile "Broken.CSV" "".
Definition notes_txt : UploadedFile := mkFile "notes.txt" "to do".
Definition sales_csv : UploadedFile := mkFile "sales.csv" "month,total".
Definition broken_png : UploadedFile := mkFile "shot.png" "".
Definition cut_png : UploadedFile := mkFile "cut.png" "PNG cut".
Definition brand_pptx : UploadedFile := mkFile "brand.pptx" "PK".
Definition bad_cfg : ChartCfg := mkCfg ["month"; "bad"] "month" "bad" "bar" "bad".

(** Further uploads: screenshots that embed, a queue that differs from
    [cards10] in the two cards that are not rendered, and a chart that can be
    drawn. *)
Definition ok_png (k : string) : UploadedFile := mkFile (k +:+ ".png") ("PNG " +:+ k).

Definition cards10' : list Card :=
  map card ["1"; "2"; "3"; "4"; "five"; "6"; "7"; "8"; "9"; "ten"].

Definition line_cfg : ChartCfg :=
  mkCfg ["month"; "total"] "month" "total" "line" "total".

End Sample.


(** * Properties *)

Section Facts.
Context `{M : Media} `{L : @Library M}.

(** ** The card loop *)

Lemma card_eta (c : Card) : mkCard (headline c) (value c) (note c) = c.
Proof. by destruct c. Qed.

Lemma truthy_false (s : string) : truthy s = false -> s = "".
Proof. by destruct s. Qed.

(** With at most four cards left for the free grid slots the loop returns;
    the shapes it appends read back as the cards, and hold no picture and no
    chart. *)
Lemma card_loop_spec (accent : RGB) (cs : list Card) :
  forall (idx : nat) (slide : Slide),
    idx + length cs <= 4 ->
    exists added : list Shape,
      card_loop accent idx cs slide = Ok (add_shapes slide added)
      /\ (forall post, no_leading_textbox post ->
            no_leading_textbox (added ++ post)
            /\ cards_of_shapes (added ++ post) = cs ++ cards_of_shapes post)
      /\ List.filter is_picture added = []
      /\ List.filter is_chart added = [].
Proof.
  induction cs as [|c cs IH]; intros idx slide Hlen.
  - exists []. destruct slide; unfold add_shapes; cbn. rewrite app_nil_r.
    by repeat split.
  - cbn [length] in Hlen.
    assert (exists p, grid_positions !! idx = Some p) as [[left_in top_in] Hp].
    { destruct idx as [|[|[|[|]]]]; cbn; eauto; lia. }
    cbn [card_loop]. rewrite Hp.
    destruct (IH (S idx)
                (add_kpi_card slide left_in top_in card_w card_h
                   (headline c) (value c) (note c) accent))
      as (added & Hrun & Hread & Hpic & Hchart); [lia|].
    rewrite Hrun. unfold add_kpi_card, add_shapes. cbn [layout shapes notes].
    eexists. split; [by rewrite <- app_assoc|].
    destruct (truthy (note c)) eqn:Hnote; (split; [|by split]);
      intros post Hpost; destruct (Hread post Hpost) as [Hlead Hcards];
      (split; [done|]); cbn.
    + rewrite Hcards. by rewrite card_eta.
    + apply truthy_false in Hnote.
      destruct (added ++ post) as [|[] ?] eqn:Hrest; try done;
        cbn in Hcards |- *; rewrite <- Hcards, <- Hnote; by rewrite card_eta.
Qed.

(** ** The blocks of [build_slide] *)

Lemma add_shapes_nil (s : Slide) : add_shapes s [] = s.
Proof. destruct s. unfold add_shapes. cbn. by rewrite app_nil_r. Qed.

Lemma add_shapes_app (s : Slide) (a b : list Shape) :
  add_shapes (add_shapes s a) b = add_shapes s (a ++ b).
Proof. unfold add_shapes. cbn. by rewrite app_assoc. Qed.

Ltac run_st :=
  unfold mbind, St_bind, mret, St_ret, lift, try_except, st_warning,
    st_success, st_download_button; cbn.

(** The shapes a slide starts with: placeholders and two text boxes, which
    read back as no card, no picture, no chart and no rectangle. *)
Lemma new_slide_shapes_filter (f : Shape -> bool) inp layout_idx :
  (forall name, f (Placeholder name) = false) ->
  List.filter f (new_slide_shapes inp layout_idx) = [].
Proof.
  intros Hp. unfold new_slide_shapes.
  induction (layout_placeholders _ _) as [|name names IH]; [done|].
  cbn. by rewrite Hp.
Qed.

Lemma start_shapes_filter (f : Shape -> bool) inp layout_idx title_str :
  (forall name, f (Placeholder name) = false) ->
  (forall g frame, f (TextBox g frame) = false) ->
  List.filter f (start_shapes inp layout_idx title_str) = [].
Proof.
  intros Hp Ht. unfold start_shapes.
  rewrite List.filter_app, new_slide_shapes_filter by done.
  cbn [header_shapes List.filter app]. by rewrite !Ht.
Qed.

Lemma start_shapes_cards inp layout_idx title_str (rest : list Shape) :
  cards_of_shapes (start_shapes inp layout_idx title_str ++ rest)
  = cards_of_shapes rest.
Proof.
  unfold start_shapes, new_slide_shapes. rewrite <- app_assoc.
  induction (layout_placeholders _ _) as [|name names IH]; done.
Qed.

Lemma start_shapes_rects inp layout_idx title_str :
  omap rect_geom (start_shapes inp layout_idx title_str) = [].
Proof.
  unfold start_shapes, new_slide_shapes. rewrite omap_app.
  cbn [header_shapes omap rect_geom]. rewrite app_nil_r.
  induction (layout_placeholders _ _) as [|name names IH]; done.
Qed.

(** What [add_chart] does to a slide does not depend on the slide: it appends
    no shape or the chart, and returns or raises. *)
Lemma add_chart_effect l t w h df x y ty se :
  exists returned placed,
    (placed = [] \/ exists sh, placed = [sh] /\ is_chart sh = true)
    /\ (placed = [] -> exists e, returned = Raise e)
    /\ forall s,
         add_chart s l t w h df x y ty se = (returned, add_shapes s placed).
Proof.
  unfold add_chart.
  destruct (column_as_str df x) as [cats|e].
  2: { exists (Raise e), []. split_and!; [by left|by eexists|].
       intros s. by rewrite add_shapes_nil. }
  destruct (column_as_float df y) as [vals|e].
  2: { exists (Raise e), []. split_and!; [by left|by eexists|].
       intros s. by rewrite add_shapes_nil. }
  destruct (shapes_add_chart _ cats se vals) as [[]|e].
  2: { exists (Raise e), []. split_and!; [by left|by eexists|].
       intros s. by rewrite add_shapes_nil. }
  eexists _, [_]. split_and!; cycle 2.
  { intros s. reflexivity. }
  { right. by eexists. }
  done.
Qed.

(** The chart block returns on every slide and every log, with one of the
    four outcomes. *)
Lemma chart_block_spec (chart_cfg : option ChartCfg) :
  exists post w,
    ChartOutcome chart_cfg post w
    /\ forall s log, chart_block s chart_cfg log = (Ok (add_shapes s post), log ++ w).
Proof.
  destruct chart_cfg as [cfg|].
  - destruct (add_chart_effect 50 630 1150 230 (cfg_df cfg) (cfg_x cfg)
                (cfg_y cfg) (cfg_type cfg) (cfg_series cfg))
      as (returned & placed & Hplaced & Hnone & Hrun).
    destruct returned as [[]|e], Hplaced as [->|(sh & -> & Hsh)].
    + by destruct (Hnone eq_refl).
    + eexists [sh], []. split; [by eapply chart_added|].
      intros s log. unfold chart_block. rewrite Hrun. run_st.
      by rewrite app_nil_r.
    + eexists [], [_]. split.
      { eapply chart_failed; [done|]. intros s. rewrite Hrun.
        by rewrite add_shapes_nil. }
      intros s log. unfold chart_block. rewrite Hrun. by run_st.
    + eexists [sh], [_]. split; [by eapply chart_kept|].
      intros s log. unfold chart_block. rewrite Hrun. by run_st.
  - exists [], []. split; [by apply chart_none|].
    intros s log. unfold chart_block. run_st.
    by rewrite add_shapes_nil, app_nil_r.
Qed.

(** The image block returns on every slide and every log, with one of the
    three outcomes; it places at most one picture. *)
Lemma image_block_spec (imgs_subset : list UploadedFile) :
  exists post w placed,
    ImageOutcome imgs_subset post w
    /\ forall s log,
         image_loop (take 1 imgs_subset) s 0 log
         = (Ok (add_shapes s post, placed), log ++ w).
Proof.
  destruct imgs_subset as [|img rest].
  - exists [], [], 0. split; [by apply image_none|].
    intros s log. cbn. run_st. by rewrite add_shapes_nil, app_nil_r.
  - destruct (embed img) as [png|e] eqn:Hembed.
    + eexists [_], [], 1. split; [by eapply image_placed|].
      intros s log. unfold embed, mbind, result_bind in Hembed.
      cbn. run_st. unfold add_screenshot, mbind, result_bind.
      destruct (image_open_rgb _) as [pil|]; [|done].
      rewrite Hembed. cbn. by rewrite app_nil_r.
    + eexists [], [_], 0. split; [by eapply image_failed|].
      intros s log. unfold embed, mbind, result_bind in Hembed.
      cbn. run_st. unfold add_screenshot, mbind, result_bind.
      destruct (image_open_rgb _) as [pil|].
      * rewrite Hembed. by rewrite add_shapes_nil.
      * injection Hembed as ->. by rewrite add_shapes_nil.
Qed.

(** What follows the cards on a slide reads back as no card. *)
Lemma outcomes_no_cards chart_cfg imgs_subset cpost cw ipost iw :
  ChartOutcome chart_cfg cpost cw ->
  ImageOutcome imgs_subset ipost iw ->
  no_leading_textbox (cpost ++ ipost) /\ cards_of_shapes (cpost ++ ipost) = [].
Proof.
  intros Hc Hi.
  destruct Hc as [_|cfg sh _ Hsh _|cfg e _ _|cfg sh e _ Hsh _]; destruct Hi; cbn;
    try destruct sh; done.
Qed.

(** The shapes of a chart outcome are charts, and those of an image outcome
    pictures. *)
Lemma ChartOutcome_shapes chart_cfg cpost cw :
  ChartOutcome chart_cfg cpost cw ->
  List.filter is_chart cpost = cpost
  /\ List.filter is_picture cpost = []
  /\ List.filter is_rectangle cpost = []
  /\ List.filter is_textbox cpost = []
  /\ omap rect_geom cpost = [].
Proof.
  intros [_|cfg sh _ Hsh _|cfg e _ _|cfg sh e _ Hsh _]; try done;
    by destruct sh.
Qed.

Lemma ImageOutcome_shapes imgs_subset ipost iw :
  ImageOutcome imgs_subset ipost iw ->
  List.filter is_chart ipost = []
  /\ List.filter is_picture ipost = ipost
  /\ List.filter is_rectangle ipost = []
  /\ List.filter is_textbox ipost = []
  /\ omap rect_geom ipost = [].
Proof. by intros []. Qed.

(** ** [build_slide] returns, and leaves a [Built] slide *)

Lemma build_slide_spec inp layout_idx accent title_str cards_subset imgs_subset
    chart_cfg :
  exists slide w,
    Built inp layout_idx accent title_str cards_subset imgs_subset chart_cfg
      slide w
    /\ forall prs log,
         build_slide inp layout_idx accent prs title_str cards_subset
           imgs_subset chart_cfg log
         = (Ok (mkPrs (slide_layouts prs) (slides prs ++ [slide])), log ++ w).
Proof.
  destruct (card_loop_spec accent (take 4 cards_subset) 0
              (mkSlide layout_idx (start_shapes inp layout_idx title_str) None))
    as (added & Hrun & Hread & Hpic & Hchart).
  { rewrite length_take. lia. }
  destruct (chart_block_spec chart_cfg) as (cpost & cw & Hc & Hcrun).
  destruct (image_block_spec imgs_subset) as (ipost & iw & placed & Hi & Hirun).
  destruct (outcomes_no_cards _ _ _ _ _ _ Hc Hi) as [Hlead Hnone].
  eexists _, (cw ++ iw). split.
  - exists added, cpost, ipost, cw, iw. split_and!; try done.
    destruct (Hread _ Hlead) as [_ ->]. by rewrite Hnone, app_nil_r.
  - intros prs log. unfold build_slide.
    unfold mbind at 1, St_bind at 1, lift at 1.
    change (add_shapes (mkSlide layout_idx (new_slide_shapes inp layout_idx) None)
              (header_shapes inp title_str))
      with (mkSlide layout_idx (start_shapes inp layout_idx title_str) None).
    rewrite Hrun.
    unfold mbind at 1, St_bind at 1. rewrite Hcrun.
    unfold mbind at 1, St_bind at 1. rewrite Hirun.
    unfold mret, St_ret. rewrite !add_shapes_app.
    unfold add_shapes. cbn [layout shapes notes]. by rewrite <- !app_assoc.
Qed.

(** ** The outcomes of a failed chart and of a failed image *)

(** When a call of [add_chart] raises, the chart block gives the warning, and
    the shapes it leaves are those the call has put on the slide. *)
Lemma ChartOutcome_raised cfg s0 s1 e post w :
  ChartOutcome (Some cfg) post w ->
  add_chart s0 50 630 1150 230 (cfg_df cfg) (cfg_x cfg) (cfg_y cfg)
    (cfg_type cfg) (cfg_series cfg) = (Raise e, s1) ->
  shapes s1 = shapes s0 ++ post
  /\ w = [Warning ("Chart could not be added: " +:+ e)].
Proof.
  intros Hc Hraise.
  destruct Hc as [Hn|c sh Hs _ Hok|c e' Hs Hr|c sh e' Hs _ Hr]; try done;
    injection Hs as <-.
  - specialize (Hok s0). by rewrite Hraise in Hok.
  - specialize (Hr s0). rewrite Hraise in Hr. injection Hr as -> ->.
    by rewrite app_nil_r.
  - specialize (Hr s0). rewrite Hraise in Hr. by injection Hr as -> ->.
Qed.

(** Once the columns are converted and the chart shape is made, the chart is
    on the slide, and [add_chart] ends as the formatting does. *)
Lemma add_chart_placed s cfg cats vals :
  column_as_str (cfg_df cfg) (cfg_x cfg) = Ok cats ->
  column_as_float (cfg_df cfg) (cfg_y cfg) = Ok vals ->
  shapes_add_chart (chart_kind (cfg_type cfg)) cats (cfg_series cfg) vals = Ok tt ->
  add_chart s 50 630 1150 230 (cfg_df cfg) (cfg_x cfg) (cfg_y cfg)
    (cfg_type cfg) (cfg_series cfg)
  = (chart_format (chart_kind (cfg_type cfg)) cats (cfg_series cfg) vals,
     add_shapes s [chart_of cfg cats vals]).
Proof.
  unfold add_chart, chart_kind. by intros -> -> ->.
Qed.

(** Before that, [add_chart] raises and leaves the slide as it was. *)
Lemma add_chart_early s cfg e :
  (column_as_str (cfg_df cfg) (cfg_x cfg) = Raise e
   \/ (exists cats,
         column_as_str (cfg_df cfg) (cfg_x cfg) = Ok cats
         /\ column_as_float (cfg_df cfg) (cfg_y cfg) = Raise e)
   \/ (exists cats vals,
         column_as_str (cfg_df cfg) (cfg_x cfg) = Ok cats
         /\ column_as_float (cfg_df cfg) (cfg_y cfg) = Ok vals
         /\ shapes_add_chart (chart_kind (cfg_type cfg)) cats (cfg_series cfg) vals
            = Raise e)) ->
  add_chart s 50 630 1150 230 (cfg_df cfg) (cfg_x cfg) (cfg_y cfg)
    (cfg_type cfg) (cfg_series cfg)
  = (Raise e, s).
Proof.
  unfold add_chart, chart_kind.
  by intros [->|[(cats & -> & ->)|(cats & vals & -> & -> & ->)]].
Qed.

Lemma ImageOutcome_failed img rest e post w :
  ImageOutcome (img :: rest) post w ->
  embed img = Raise e ->
  post = []
  /\ w = [Warning ("Could not embed " +:+ file_name img +:+ ": " +:+ e)].
Proof.
  intros Hi Hraise.
  destruct Hi as [Hn|i r png Hs Hok|i r e' Hs Hr]; try done;
    injection Hs as <- <-; rewrite Hraise in *; try done.
  by injection Hr as ->.
Qed.

(** ** What a [Built] slide shows *)

Section BuiltFacts.
Variables (inp : Inputs) (layout_idx : nat) (accent : RGB) (title_str : string)
  (cards_subset : list Card) (imgs_subset : list UploadedFile)
  (chart_cfg : option ChartCfg) (slide : Slide) (w : list UiEvent).
Hypothesis HB :
  Built inp layout_idx accent title_str cards_subset imgs_subset chart_cfg
    slide w.

Lemma shapes_notes_block s cs cfg : shapes (notes_block inp s cs cfg) = shapes s.
Proof. unfold notes_block. by destruct (include_speaker_notes inp). Qed.

Lemma Built_rendered_cards : rendered_cards slide = take 4 cards_subset.
Proof.
  destruct HB as (added & cpost & ipost & cw & iw & _ & Hcards & _ & _ & _ & _
                  & -> & _).
  unfold rendered_cards. rewrite shapes_notes_block. cbn [shapes].
  by rewrite start_shapes_cards.
Qed.

(** The charts and the pictures of the slide are the outcomes of its chart
    block and of its image block, and its warnings are theirs. *)
Lemma Built_outcomes :
  exists cw iw,
    w = cw ++ iw
    /\ ChartOutcome chart_cfg (charts slide) cw
    /\ ImageOutcome imgs_subset (pictures slide) iw.
Proof.
  destruct HB as (added & cpost & ipost & cw & iw & _ & _ & Hpic & Hchart & Hc
                  & Hi & -> & ->).
  exists cw, iw. split; [done|].
  unfold charts, pictures. rewrite shapes_notes_block. cbn [shapes].
  rewrite !List.filter_app, Hpic, Hchart, !start_shapes_filter by done.
  destruct (ChartOutcome_shapes _ _ _ Hc) as (-> & -> & _).
  destruct (ImageOutcome_shapes _ _ _ Hi) as (-> & -> & _).
  cbn [app]. by rewrite app_nil_r.
Qed.

Lemma Built_pictures :
  pictures slide = [] \/
  exists img rest png,
    imgs_subset = img :: rest /\ embed img = Ok png
    /\ pictures slide = [Picture 50 630 (Some 1150%Z) None png].
Proof.
  destruct Built_outcomes as (cw & iw & _ & _ & Hi).
  destruct Hi as [_|img rest png Himgs Hpng|img rest e _ _]; eauto 10.
Qed.

Lemma Built_warnings : forallb is_warning w = true.
Proof.
  destruct HB as (added & cpost & ipost & cw & iw & _ & _ & _ & _ & Hc & Hi
                  & _ & ->).
  destruct Hc, Hi; done.
Qed.

Lemma Built_layout : layout slide = layout_idx.
Proof.
  destruct HB as (added & cpost & ipost & cw & iw & _ & _ & _ & _ & _ & _
                  & -> & _).
  unfold notes_block. by destruct (include_speaker_notes inp).
Qed.
End BuiltFacts.

(** The slide whose chart shape was made carries that chart, and its chart
    block warns exactly when the formatting raised. *)
Lemma Built_chart_placed inp layout_idx accent title_str cards_subset imgs_subset
    cfg cats vals slide w :
  Built inp layout_idx accent title_str cards_subset imgs_subset (Some cfg)
    slide w ->
  column_as_str (cfg_df cfg) (cfg_x cfg) = Ok cats ->
  column_as_float (cfg_df cfg) (cfg_y cfg) = Ok vals ->
  shapes_add_chart (chart_kind (cfg_type cfg)) cats (cfg_series cfg) vals = Ok tt ->
  charts slide = [chart_of cfg cats vals]
  /\ exists iw,
       w = chart_warning
             (chart_format (chart_kind (cfg_type cfg)) cats (cfg_series cfg) vals)
           ++ iw
       /\ ImageOutcome imgs_subset (pictures slide) iw.
Proof.
  intros HB Hcats Hvals Hadd.
  destruct (Built_outcomes _ _ _ _ _ _ _ _ _ HB) as (cw & iw & -> & Hc & Hi).
  pose proof (add_chart_placed (mkSlide 0 [] None) cfg cats vals Hcats Hvals Hadd)
    as Hrun.
  destruct Hc as [Hn|c sh Hs _ Hr|c e Hs Hr|c sh e Hs _ Hr]; try done;
    injection Hs as <-; specialize (Hr (mkSlide 0 [] None));
    rewrite Hrun in Hr; injection Hr as Hfmt Hsh; try done;
    rewrite Hfmt; subst sh; (split; [done|]); by exists iw.
Qed.

(** The slide whose chart failed before its shape was made carries no chart,
    and its chart block gives the warning. *)
Lemma Built_chart_early inp layout_idx accent title_str cards_subset imgs_subset
    cfg e slide w :
  Built inp layout_idx accent title_str cards_subset imgs_subset (Some cfg)
    slide w ->
  (forall s, add_chart s 50 630 1150 230 (cfg_df cfg) (cfg_x cfg) (cfg_y cfg)
               (cfg_type cfg) (cfg_series cfg) = (Raise e, s)) ->
  charts slide = []
  /\ exists iw,
       w = Warning ("Chart could not be added: " +:+ e) :: iw
       /\ ImageOutcome imgs_subset (pictures slide) iw.
Proof.
  intros HB Hraise.
  destruct (Built_outcomes _ _ _ _ _ _ _ _ _ HB) as (cw & iw & -> & Hc & Hi).
  destruct (ChartOutcome_raised _ (mkSlide 0 [] None) _ _ _ _ Hc (Hraise _))
    as [Hpost ->].
  cbn [shapes app] in Hpost. rewrite <- Hpost. split; [done|]. by exists iw.
Qed.

(** ** The handler returns

    The handler never raises: it builds one or two [Built] slides behind the
    slides of the base presentation, and ends the log with the success message
    and the download button that carries the presentation. *)

Lemma generate_pptx_spec (inp : Inputs) (cards : list Card)
    (mapping : option Table * option Label * option Label) :
  let base := create_presentation (file_bytes <$> template_file inp) in
  let layout_idx := if (6 <? slide_layouts base)%nat then 6 else 0 in
  let two :=
    use_two_slides (length cards) (length (screenshots inp)) (max_slides inp) in
  let parts := split_assets two cards (screenshots inp) in
  exists s1 w1 s2 w2,
    Built inp layout_idx (accent_color inp) (title_text inp)
      parts.1.1 parts.2.1 (make_chart_cfg inp mapping) s1 w1
    /\ Built inp layout_idx (accent_color inp) (title_text inp +:+ " (cont.)")
         parts.1.2 parts.2.2 None s2 w2
    /\ forall log,
         let new := if two then [s1; s2] else [s1] in
         let prs := mkPrs (slide_layouts base) (slides base ++ new) in
         generate_pptx inp cards mapping log
         = (Ok prs, log ++ w1 ++ (if two then w2 else []) ++ download inp prs).
Proof.
  intros base layout_idx two parts.
  destruct (build_slide_spec inp layout_idx (accent_color inp) (title_text inp)
              parts.1.1 parts.2.1 (make_chart_cfg inp mapping))
    as (s1 & w1 & HB1 & Hrun1).
  destruct (build_slide_spec inp layout_idx (accent_color inp)
              (title_text inp +:+ " (cont.)") parts.1.2 parts.2.2 None)
    as (s2 & w2 & HB2 & Hrun2).
  exists s1, w1, s2, w2. split_and!; [done|done|].
  intros log. unfold generate_pptx.
  fold base. fold layout_idx. fold two. fold parts.
  destruct parts as [[cards1 cards2] [imgs1 imgs2]]. cbn [fst snd] in *.
  unfold mbind at 1, St_bind at 1. rewrite Hrun1.
  unfold mbind at 1, St_bind at 1.
  destruct two.
  - rewrite Hrun2. run_st. unfold download.
    by rewrite <- !app_assoc.
  - run_st. unfold download. by rewrite <- !app_assoc.
Qed.

(** ** The table loader *)

(** [load_table] in closed form: it never raises; it is silent when the table
    was read, and gives exactly one warning otherwise. *)
Lemma load_table_spec (file : UploadedFile) (log : list UiEvent) :
  load_table file log =
  match read_table file with
  | Ok (Some t) => (Ok (Some t), log)
  | Ok None =>
      (Ok None, log ++ [Warning ("Unsupported table file: " +:+ file_name file)])
  | Raise e =>
      (Ok None,
       log ++ [Warning ("Could not read " +:+ file_name file +:+ ": " +:+ e)])
  end.
Proof.
  unfold load_table. run_st. by destruct (read_table file) as [[t|]|e].
Qed.

Lemma read_table_unsupported (file : UploadedFile) :
  supported_extension (file_name file) = false -> read_table file = Ok None.
Proof.
  unfold supported_extension, read_table. intros Hext.
  destruct (endswith _ ".csv"); [done|].
  destruct (endswith _ ".xlsx"); [done|].
  destruct (endswith _ ".xls"); [done|].
  by destruct (endswith _ ".json").
Qed.

(** A [.csv] file that pandas reads is loaded as the very table [read_csv]
    returned. *)
Lemma load_table_csv (file : UploadedFile) (t : Table) (log : list UiEvent) :
  endswith (lower (file_name file)) ".csv" = true ->
  read_csv (file_bytes file) = Ok t ->
  load_table file log = (Ok (Some t), log).
Proof.
  intros Hext Hread. rewrite load_table_spec. unfold read_table.
  rewrite Hext. unfold mbind, result_bind. by rewrite Hread.
Qed.

(** The loading loop returns: it appends some tables to the ones it was given
    and some warnings to the log, and neither depends on what was there. *)
Lemma load_tables_spec (files : list UploadedFile) :
  exists ts w,
    forallb is_warning w = true
    /\ forall acc log, load_tables files acc log = (Ok (acc ++ ts), log ++ w).
Proof.
  induction files as [|f files (ts & w & Hw & IH)].
  - exists [], []. split; [done|]. intros acc log. cbn. by rewrite !app_nil_r.
  - cbn [load_tables]. unfold mbind, St_bind.
    pose proof (load_table_spec f) as Hf.
    destruct (read_table f) as [[t|]|e].
    + exists (t :: ts), w. split; [done|]. intros acc log. rewrite Hf, IH.
      by rewrite <- app_assoc.
    + eexists ts, (_ :: w). split; cycle 1.
      { intros acc log. rewrite Hf, IH. by rewrite <- app_assoc. }
      exact Hw.
    + eexists ts, (_ :: w). split; cycle 1.
      { intros acc log. rewrite Hf, IH. by rewrite <- app_assoc. }
      exact Hw.
Qed.

Lemma load_tables_app (l1 l2 : list UploadedFile) :
  forall acc log,
    load_tables (l1 ++ l2) acc log =
    match load_tables l1 acc log with
    | (Ok ts, log') => load_tables l2 ts log'
    | (Raise e, log') => (Raise e, log')
    end.
Proof.
  induction l1 as [|f l1 IH]; intros acc log; [done|].
  cbn [app load_tables]. unfold mbind, St_bind.
  rewrite load_table_spec. destruct (read_table f) as [[t|]|e]; apply IH.
Qed.

(** A file that [load_table] turns down with one event leaves the loading of
    the files before and after it as it is without that file. *)
Lemma load_tables_skip (f : UploadedFile) (ev : UiEvent) :
  (forall log, load_table f log = (Ok None, log ++ [ev])) ->
  forall before after,
    exists ts1 w1 ts2 w2,
      (forall acc log, load_tables before acc log = (Ok (acc ++ ts1), log ++ w1))
      /\ (forall acc log, load_tables after acc log = (Ok (acc ++ ts2), log ++ w2))
      /\ (forall acc log,
            load_tables (before ++ f :: after) acc log
            = (Ok (acc ++ ts1 ++ ts2), log ++ w1 ++ [ev] ++ w2))
      /\ (forall acc log,
            load_tables (before ++ after) acc log
            = (Ok (acc ++ ts1 ++ ts2), log ++ w1 ++ w2)).
Proof.
  intros Hf before after.
  destruct (load_tables_spec before) as (ts1 & w1 & _ & H1).
  destruct (load_tables_spec after) as (ts2 & w2 & _ & H2).
  exists ts1, w1, ts2, w2. split_and!; try done; intros acc log.
  - rewrite load_tables_app, H1. cbn [load_tables].
    unfold mbind, St_bind. rewrite Hf, H2. by rewrite <- !app_assoc.
  - rewrite load_tables_app, H1, H2. by rewrite <- !app_assoc.
Qed.

(** ** Runs and sessions *)

(** A run whose preview returns and in which "Generate PPTX" was pressed
    returns the presentation of the handler; the only events before those of
    the handler are the warnings of the table loader. *)
Lemma script_generate (inp : Inputs) :
  generate_clicked inp = true ->
  preview (screenshots inp) = Ok tt ->
  exists ts w,
    forallb is_warning w = true
    /\ (forall acc log,
          load_tables (data_files inp) acc log = (Ok (acc ++ ts), log ++ w))
    /\ forall session_cards log,
         script inp session_cards log =
         match generate_pptx inp (queue_card inp session_cards)
                 (chart_mapping inp ts) (log ++ w) with
         | (Ok prs, log') => (Ok (queue_card inp session_cards, Some prs), log')
         | (Raise e, log') =>
             (Ok (queue_card inp session_cards, None), log' ++ [Uncaught e])
         end.
Proof.
  intros Hgen Hprev.
  destruct (load_tables_spec (data_files inp)) as (ts & w & Hw & Hload).
  exists ts, w. split; [done|]. split; [done|]. intros session_cards log.
  unfold script, script_body, mbind, St_bind, lift.
  rewrite Hload, Hprev, Hgen. cbn [app].
  by destruct (generate_pptx _ _ _ _) as [[prs|e] log'].
Qed.

(** A run whose preview raises is cut short there: it shows the exception
    after the warnings of the table loader and gives no presentation. *)
Lemma script_preview_raises (inp : Inputs) (e : string) :
  preview (screenshots inp) = Raise e ->
  exists ts w,
    forallb is_warning w = true
    /\ (forall acc log,
          load_tables (data_files inp) acc log = (Ok (acc ++ ts), log ++ w))
    /\ forall session_cards log,
         script inp session_cards log
         = (Ok (queue_card inp session_cards, None), log ++ w ++ [Uncaught e]).
Proof.
  intros Hprev.
  destruct (load_tables_spec (data_files inp)) as (ts & w & Hw & Hload).
  exists ts, w. split; [done|]. split; [done|]. intros session_cards log.
  unfold script, script_body, mbind, St_bind, lift.
  rewrite Hload, Hprev. by rewrite <- app_assoc.
Qed.

(** Every run returns and leaves the queue that [queue_card] computes. *)
Lemma script_queue (inp : Inputs) (session_cards : list Card) (log : list UiEvent) :
  exists out log',
    script inp session_cards log = (Ok (queue_card inp session_cards, out), log').
Proof.
  unfold script.
  destruct (script_body _ _ _) as [[out|e] log']; by eexists _, _.
Qed.

(** The card of the form, as "Add card" queues it. *)
Lemma queue_card_add (inp : Inputs) (cards : list Card) :
  add_card inp = true ->
  queue_card inp cards = cards ++ [form_card inp].
Proof. unfold queue_card. by intros ->. Qed.

(** The last run of a session is the only run of a session of one. *)
Lemma session_one (inp : Inputs) (cards : list Card) (log : list UiEvent) :
  session [inp] cards log = script inp cards log.
Proof.
  cbn [session]. unfold mbind, St_bind.
  by destruct (script_queue inp cards log) as (out & log' & ->).
Qed.

(** After runs that each queue a card, the session state holds the queue of
    those cards, in the order they were added, and the next run starts from
    it. *)
Lemma session_queue (adds : list Inputs) (last : Inputs) :
  Forall (fun r => add_card r = true) adds ->
  forall cards0 log,
    exists out0 log',
      session adds cards0 log = (Ok (cards0 ++ map form_card adds, out0), log')
      /\ session (adds ++ [last]) cards0 log
         = script last (cards0 ++ map form_card adds) log'.
Proof.
  induction 1 as [|r adds Hr _ IH]; intros cards0 log.
  - exists None, log. cbn [app map]. rewrite app_nil_r.
    split; [done|apply session_one].
  - destruct (script_queue r cards0 log) as (out & log1 & Hrun).
    rewrite (queue_card_add r cards0 Hr) in Hrun.
    destruct (IH (cards0 ++ [form_card r]) log1) as (out0 & log' & Hfirst & Hrest).
    rewrite <- app_assoc in Hfirst, Hrest. cbn [app] in Hfirst, Hrest.
    cbn [app map session]. unfold mbind, St_bind. rewrite Hrun.
    destruct adds as [|r' adds].
    + injection Hfirst as _ <-. exists out, log1. split; [done|].
      by rewrite <- Hrest.
    + exists out0, log'. by split.
Qed.

(** ** The slides of a generation request *)

Lemma use_two_slides_true (total_cards total_imgs : nat) (m : Z) :
  use_two_slides total_cards total_imgs m = true
  <-> 4 < total_cards + total_imgs /\ (2 <= m)%Z.
Proof.
  unfold use_two_slides. rewrite andb_true_iff, Nat.ltb_lt, Z.leb_le. done.
Qed.

Lemma generated_slides_app (inp : Inputs) (n : nat) (new : list Slide) :
  generated_slides inp
    (mkPrs n (slides (create_presentation (file_bytes <$> template_file inp)) ++ new))
  = new.
Proof. unfold generated_slides. cbn [slides]. by rewrite drop_app_length. Qed.

(** The handler returns; the slides it generated are one or two [Built]
    slides over the two parts of [split_assets], behind the slides of the base
    presentation; its log is the warnings of the slides and the download. *)
Lemma generate_pptx_slides (inp : Inputs) (cards : list Card)
    (mapping : option Table * option Label * option Label)
    (log : list UiEvent) :
  let two :=
    use_two_slides (length cards) (length (screenshots inp)) (max_slides inp) in
  let parts := split_assets two cards (screenshots inp) in
  exists layout_idx prs s1 w1 s2 w2,
    generate_pptx inp cards mapping log
    = (Ok prs, log ++ w1 ++ (if two then w2 else []) ++ download inp prs)
    /\ Built inp layout_idx (accent_color inp) (title_text inp)
         parts.1.1 parts.2.1 (make_chart_cfg inp mapping) s1 w1
    /\ Built inp layout_idx (accent_color inp) (title_text inp +:+ " (cont.)")
         parts.1.2 parts.2.2 None s2 w2
    /\ generated_slides inp prs = (if two then [s1; s2] else [s1])
    /\ slides prs
       = slides (create_presentation (file_bytes <$> template_file inp))
         ++ generated_slides inp prs.
Proof.
  intros two parts.
  destruct (generate_pptx_spec inp cards mapping)
    as (s1 & w1 & s2 & w2 & HB1 & HB2 & Hrun).
  eexists _, _, s1, w1, s2, w2. split; [apply Hrun|].
  split; [exact HB1|]. split; [exact HB2|].
  rewrite generated_slides_app. done.
Qed.

(** A slide with no chart mapped and no image gives no warning. *)
Lemma Built_silent inp layout_idx accent title_str cards_subset slide w :
  Built inp layout_idx accent title_str cards_subset [] None slide w -> w = [].
Proof.
  intros HB.
  destruct (Built_outcomes _ _ _ _ _ _ _ _ _ HB) as (cw & iw & -> & Hc & Hi).
  by destruct Hc, Hi.
Qed.

(** With no data file there is no table, hence no chart mapping. *)
Lemma no_files_no_chart (inp : Inputs) (ts : list Table) (w : list UiEvent) :
  data_files inp = [] ->
  (forall acc log,
     load_tables (data_files inp) acc log = (Ok (acc ++ ts), log ++ w)) ->
  w = [] /\ make_chart_cfg inp (chart_mapping inp ts) = None.
Proof.
  intros Hnone Hload. specialize (Hload [] []). rewrite Hnone in Hload.
  cbn in Hload. unfold mret, St_ret in Hload.
  injection Hload as <- <-. done.
Qed.

(** A session that queues one card per run and then generates, with a preview
    that returns: the last run returns the queue and the presentation; its
    events are the warnings of the table loader, those of the slides, and the
    download, behind the log of the runs before. *)
Lemma session_generate (adds : list Inputs) (g : Inputs) (log : list UiEvent) :
  Forall (fun r => add_card r = true) adds ->
  add_card g = false ->
  generate_clicked g = true ->
  preview (screenshots g) = Ok tt ->
  let cards := map form_card adds in
  let two := use_two_slides (length cards) (length (screenshots g)) (max_slides g) in
  let parts := split_assets two cards (screenshots g) in
  exists layout_idx out0 before ts tw prs s1 w1 s2 w2,
    session adds [] log = (Ok (cards, out0), before)
    /\ session (adds ++ [g]) [] log = script g cards before
    /\ script g cards before
       = (Ok (cards, Some prs),
          before ++ tw ++ w1 ++ (if two then w2 else []) ++ download g prs)
    /\ (forall acc l,
          load_tables (data_files g) acc l = (Ok (acc ++ ts), l ++ tw))
    /\ Built g layout_idx (accent_color g) (title_text g)
         parts.1.1 parts.2.1 (make_chart_cfg g (chart_mapping g ts)) s1 w1
    /\ Built g layout_idx (accent_color g) (title_text g +:+ " (cont.)")
         parts.1.2 parts.2.2 None s2 w2
    /\ generated_slides g prs = (if two then [s1; s2] else [s1]).
Proof.
  intros Hadds Hadd Hgen Hprev cards two parts.
  destruct (session_queue adds g Hadds [] log) as (out0 & log1 & Hfirst & Hlast).
  destruct (script_generate g Hgen Hprev) as (ts & w & _ & Hload & Hscript).
  cbn [app] in Hfirst, Hlast. fold cards in Hfirst, Hlast.
  destruct (generate_pptx_slides g cards (chart_mapping g ts) (log1 ++ w))
    as (li & prs & s1 & w1 & s2 & w2 & Hrun & HB1 & HB2 & Hslides & _).
  exists li, out0, log1, ts, w, prs, s1, w1, s2, w2.
  split_and!; try done.
  rewrite Hscript. unfold queue_card. rewrite Hadd, Hrun.
  by rewrite <- !app_assoc.
Qed.

(** ** What the deck does not depend on *)

(** Two sequences agree when their first steps agree on the log and their
    continuations agree everywhere. *)
Lemma St_bind_ext {A B : Type} (m m' : St A) (f f' : A -> St B)
    (log : list UiEvent) :
  m log = m' log ->
  (forall a l, f a l = f' a l) ->
  (m ≫= f) log = (m' ≫= f') log.
Proof.
  intros Hm Hf. unfold mbind, St_bind. rewrite Hm.
  by destruct (m' log) as [[a|e] l].
Qed.

(** [build_slide] reads its subsets through [cards_subset[:4]] and
    [imgs_subset[:1]] only. *)
Lemma build_slide_take inp layout_idx accent prs title_str cards_subset
    imgs_subset chart_cfg log :
  build_slide inp layout_idx accent prs title_str cards_subset imgs_subset
    chart_cfg log
  = build_slide inp layout_idx accent prs title_str (take 4 cards_subset)
      (take 1 imgs_subset) chart_cfg log.
Proof.
  unfold build_slide, notes_block. rewrite !take_take.
  change (4 `min` 4) with 4. change (1 `min` 1) with 1. done.
Qed.

(** Two calls of [build_slide] that agree on the first four cards and on the
    first image of their subsets return the same. *)
Lemma build_slide_agree inp layout_idx accent prs title_str cs cs' imgs imgs'
    chart_cfg log :
  take 4 cs = take 4 cs' ->
  take 1 imgs = take 1 imgs' ->
  build_slide inp layout_idx accent prs title_str cs imgs chart_cfg log
  = build_slide inp layout_idx accent prs title_str cs' imgs' chart_cfg log.
Proof.
  intros Hcs Himgs.
  rewrite (build_slide_take _ _ _ _ _ cs), (build_slide_take _ _ _ _ _ cs').
  by rewrite Hcs, Himgs.
Qed.

(** With one slide allowed, the handler reads the queue through its first four
    cards only. *)
Lemma generate_pptx_one_slide (inp : Inputs) (cards : list Card)
    (mapping : option Table * option Label * option Label)
    (log : list UiEvent) :
  max_slides inp = 1%Z ->
  generate_pptx inp cards mapping log
  = generate_pptx inp (take 4 cards) mapping log.
Proof.
  intros Hmax.
  assert (Hone : forall n m, use_two_slides n m (max_slides inp) = false).
  { intros n m. unfold use_two_slides. rewrite Hmax. apply andb_false_r. }
  unfold generate_pptx. rewrite !Hone. cbn [split_assets].
  apply St_bind_ext; [|done].
  apply build_slide_agree; [|done]. rewrite take_take. by change (4 `min` 4) with 4.
Qed.

(** * The claims *)

(** C1: every generation request returns a presentation; it adds two slides
    to the base presentation if and only if the number of queued cards plus
    the number of uploaded images exceeds 4 and [max_slides >= 2], and exactly
    one slide otherwise. *)
Theorem C1_two_slides_iff (inp : Inputs) (cards : list Card)
    (mapping : option Table * option Label * option Label)
    (log : list UiEvent) :
  exists prs log',
    generate_pptx inp cards mapping log = (Ok prs, log')
    /\ slides prs
       = slides (create_presentation (file_bytes <$> template_file inp))
         ++ generated_slides inp prs
    /\ (length (generated_slides inp prs) = 2
        <-> 4 < length cards + length (screenshots inp) /\ (2 <= max_slides inp)%Z)
    /\ (~ (4 < length cards + length (screenshots inp) /\ (2 <= max_slides inp)%Z)
        -> length (generated_slides inp prs) = 1).
Proof.
  destruct (generate_pptx_slides inp cards mapping log)
    as (li & prs & s1 & w1 & s2 & w2 & Hrun & _ & _ & Hgen & Hslides).
  eexists prs, _. split; [exact Hrun|]. split; [exact Hslides|].
  rewrite Hgen, <- use_two_slides_true.
  destruct (use_two_slides _ _ _); cbn.
  - split; [done|]. intros Hno. by destruct Hno.
  - split; [|done]. split; intros Habs; discriminate Habs.
Qed.

(** C2: after [N] runs that each queue a card, a generation with max slide
    count 1 (in a run whose screenshot preview returns) leaves exactly one
    slide; it shows the first [min N 4] queued cards, so the cards behind the
    fourth are not rendered.  They are dropped silently: from the log
    [before] that the queuing runs have left, the generating run gives the
    very presentation and the very log that it gives when the queue holds the
    first four cards only; and when it has no data file and no image, it adds
    nothing to [before] but the success message and the download. *)
Theorem C2_one_slide_min_cards (adds : list Inputs) (g : Inputs)
    (log : list UiEvent) :
  Forall (fun r => add_card r = true) adds ->
  add_card g = false ->
  generate_clicked g = true ->
  max_slides g = 1%Z ->
  preview (screenshots g) = Ok tt ->
  let cards := map form_card adds in
  exists prs log' slide out0 before,
    session (adds ++ [g]) [] log = (Ok (cards, Some prs), log')
    /\ generated_slides g prs = [slide]
    /\ rendered_cards slide = take 4 cards
    /\ length (rendered_cards slide) = Nat.min (length adds) 4
    /\ session adds [] log = (Ok (cards, out0), before)
    /\ script g cards before = (Ok (cards, Some prs), log')
    /\ script g (take 4 cards) before = (Ok (take 4 cards, Some prs), log')
    /\ (data_files g = [] -> screenshots g = [] ->
        log' = before ++ download g prs).
Proof.
  intros Hadds Hadd Hgen Hmax Hprev cards.
  destruct (session_generate adds g log Hadds Hadd Hgen Hprev)
    as (li & out0 & before & ts & tw & prs & s1 & w1 & s2 & w2 & Hfirst & Hlast
        & Hrun & Hload & HB1 & _ & Hslides).
  fold cards in Hfirst, Hlast, Hrun, HB1, Hslides.
  assert (Hone : use_two_slides (length cards) (length (screenshots g))
                   (max_slides g) = false).
  { unfold use_two_slides. rewrite Hmax. apply andb_false_r. }
  rewrite Hone in *. cbn [split_assets fst snd] in HB1.
  eexists prs, _, s1, out0, before.
  split_and!; [by rewrite Hlast|done| | |done|done| |].
  - by eapply Built_rendered_cards.
  - erewrite Built_rendered_cards by exact HB1.
    unfold cards. rewrite length_take, length_map. lia.
  - destruct (script_generate g Hgen Hprev) as (ts' & tw' & _ & Hload' & Hscript).
    assert (ts' = ts /\ tw' = tw) as [-> ->].
    { specialize (Hload [] []). rewrite Hload' in Hload.
      by injection Hload as -> ->. }
    rewrite Hscript in Hrun. rewrite Hscript.
    unfold queue_card in *. rewrite Hadd in *.
    rewrite <- (generate_pptx_one_slide g cards _ _ Hmax).
    destruct (generate_pptx _ _ _ _) as [[prs'|e] l]; [|done].
    by injection Hrun as -> ->.
  - intros Hfiles Himgs.
    destruct (no_files_no_chart g ts tw Hfiles Hload) as [-> Hcfg].
    rewrite Hcfg, Himgs in HB1. by rewrite (Built_silent _ _ _ _ _ _ _ HB1).
Qed.

(** C3: after six runs that each queue a card, a generation with no image and
    max slide count 2 leaves exactly two slides; together they show the six
    cards, and each shows at most four. *)
Theorem C3_six_cards_two_slides (adds : list Inputs) (g : Inputs)
    (log : list UiEvent) :
  length adds = 6 ->
  Forall (fun r => add_card r = true) adds ->
  add_card g = false ->
  generate_clicked g = true ->
  screenshots g = [] ->
  max_slides g = 2%Z ->
  exists prs log' s1 s2,
    session (adds ++ [g]) [] log = (Ok (map form_card adds, Some prs), log')
    /\ generated_slides g prs = [s1; s2]
    /\ rendered_cards s1 ++ rendered_cards s2 = map form_card adds
    /\ length (rendered_cards s1) + length (rendered_cards s2) = 6
    /\ length (rendered_cards s1) <= 4
    /\ length (rendered_cards s2) <= 4.
Proof.
  intros Hsix Hadds Hadd Hgen Himgs Hmax.
  assert (Hprev : preview (screenshots g) = Ok tt) by by rewrite Himgs.
  destruct (session_generate adds g log Hadds Hadd Hgen Hprev)
    as (li & out0 & before & ts & tw & prs & s1 & w1 & s2 & w2 & _ & Hlast
        & Hrun & _ & HB1 & HB2 & Hslides).
  rewrite <- Hlast in Hrun. clear Hlast Hprev.
  rewrite Himgs, Hmax, length_map, Hsix in *.
  cbn [use_two_slides length Nat.add Nat.ltb Nat.leb Z.leb Z.compare
       Pos.compare Pos.compare_cont andb split_assets fst snd] in *.
  rewrite length_map, Hsix in *.
  change (Nat.max 4 ((6 + 1) / 2)) with 4 in *.
  apply Built_rendered_cards in HB1, HB2.
  rewrite take_take in HB1. change (4 `min` 4) with 4 in HB1.
  assert (Hlen : length (map form_card adds) = 6) by by rewrite length_map.
  eexists prs, _, s1, s2. rewrite HB1, HB2.
  rewrite (take_ge (drop 4 _)) by (rewrite length_drop; lia).
  rewrite take_drop, length_take, length_drop, Hlen.
  split_and!; try done; lia.
Qed.

(** C5: [build_slide] renders the first four cards and at most the first
    image of the subsets it is given, whatever their sizes; so every slide of
    a generation request shows at most 4 card visuals and at most one
    picture. *)
Theorem C5_at_most_four_cards_one_image :
  (forall inp layout_idx accent prs title_str cards_subset imgs_subset chart_cfg log,
     exists slide log',
       build_slide inp layout_idx accent prs title_str cards_subset imgs_subset
         chart_cfg log
       = (Ok (mkPrs (slide_layouts prs) (slides prs ++ [slide])), log')
       /\ rendered_cards slide = take 4 cards_subset
       /\ length (pictures slide) <= length (take 1 imgs_subset))
  /\ (forall inp cards mapping log,
        exists prs log',
          generate_pptx inp cards mapping log = (Ok prs, log')
          /\ forall s, In s (generated_slides inp prs) ->
               length (rendered_cards s) <= 4 /\ length (pictures s) <= 1).
Proof.
  assert (Hpics : forall inp li accent title cs imgs cfg slide w,
            Built inp li accent title cs imgs cfg slide w ->
            length (pictures slide) <= length (take 1 imgs)).
  { intros inp li accent title cs imgs cfg slide w HB.
    destruct (Built_pictures _ _ _ _ _ _ _ _ _ HB)
      as [->|(img & rest & png & -> & _ & ->)]; cbn; lia. }
  split.
  - intros inp li accent prs title cs imgs cfg log.
    destruct (build_slide_spec inp li accent title cs imgs cfg)
      as (slide & w & HB & Hrun).
    exists slide, (log ++ w). split_and!; [apply Hrun| |by eapply Hpics].
    by eapply Built_rendered_cards.
  - intros inp cards mapping log.
    destruct (generate_pptx_slides inp cards mapping log)
      as (li & prs & s1 & w1 & s2 & w2 & Hrun & HB1 & HB2 & Hgen & _).
    eexists prs, _. split; [exact Hrun|]. intros s Hin.
    assert (Hs : s = s1 \/ s = s2).
    { rewrite Hgen in Hin.
      destruct (use_two_slides _ _ _); cbn in Hin; intuition auto. }
    destruct Hs as [-> | ->].
    + erewrite Built_rendered_cards by exact HB1. rewrite length_take.
      apply Hpics in HB1. rewrite length_take in HB1. lia.
    + erewrite Built_rendered_cards by exact HB2. rewrite length_take.
      apply Hpics in HB2. rewrite length_take in HB2. lia.
Qed.

(** C4, amended: whenever two slides are produced, the first slide is built
    over the prefix of the first [max 4 (ceil (N/2))] queued cards and of the
    first [max 1 (ceil (M/2))] images, the second over the remaining suffixes.
    The two image parts differ in size by at most one; the two card parts do
    so exactly when [N <= 1] or [7 <= N], since the first slide is filled up
    to four cards before the second gets any. *)
Theorem C4_split_by_position (inp : Inputs) (cards : list Card)
    (mapping : option Table * option Label * option Label)
    (log : list UiEvent) :
  use_two_slides (length cards) (length (screenshots inp)) (max_slides inp) = true ->
  let half_cards := Nat.max 4 ((length cards + 1) / 2) in
  let half_imgs := Nat.max 1 ((length (screenshots inp) + 1) / 2) in
  let cards1 := take half_cards cards in
  let cards2 := drop half_cards cards in
  let imgs1 := take half_imgs (screenshots inp) in
  let imgs2 := drop half_imgs (screenshots inp) in
  exists layout_idx prs log' s1 w1 s2 w2,
    generate_pptx inp cards mapping log = (Ok prs, log')
    /\ generated_slides inp prs = [s1; s2]
    /\ Built inp layout_idx (accent_color inp) (title_text inp)
         cards1 imgs1 (make_chart_cfg inp mapping) s1 w1
    /\ Built inp layout_idx (accent_color inp) (title_text inp +:+ " (cont.)")
         cards2 imgs2 None s2 w2
    /\ cards1 ++ cards2 = cards
    /\ imgs1 ++ imgs2 = screenshots inp
    /\ length imgs2 <= length imgs1 <= length imgs2 + 1
    /\ (length cards2 <= length cards1 <= length cards2 + 1
        <-> length cards <= 1 \/ 7 <= length cards).
Proof.
  intros Htwo half_cards half_imgs cards1 cards2 imgs1 imgs2.
  destruct (generate_pptx_slides inp cards mapping log)
    as (li & prs & s1 & w1 & s2 & w2 & Hrun & HB1 & HB2 & Hgen & _).
  rewrite Htwo in *. cbn [split_assets fst snd] in HB1, HB2.
  eexists li, prs, _, s1, w1, s2, w2.
  split; [exact Hrun|]. split; [exact Hgen|].
  split; [exact HB1|]. split; [exact HB2|].
  split; [apply take_drop|]. split; [apply take_drop|].
  subst cards1 cards2 imgs1 imgs2. rewrite !length_take, !length_drop.
  subst half_cards half_imgs.
  pose proof (Nat.div_mod_eq (length cards + 1) 2) as Hc.
  pose proof (Nat.mod_upper_bound (length cards + 1) 2) as Hc'.
  pose proof (Nat.div_mod_eq (length (screenshots inp) + 1) 2) as Hi.
  pose proof (Nat.mod_upper_bound (length (screenshots inp) + 1) 2) as Hi'.
  lia.
Qed.

(** C7: a file whose lower-cased name ends in none of [.csv], [.xlsx], [.xls],
    [.json] yields no table and the "unsupported" warning; in the loading
    loop the files before and after it load as they do without it: the same
    tables, the same warnings, with the one warning in between. *)
Theorem C7_unsupported_extension (f : UploadedFile) :
  supported_extension (file_name f) = false ->
  (forall log,
     load_table f log
     = (Ok None, log ++ [Warning ("Unsupported table file: " +:+ file_name f)]))
  /\ forall before after,
       exists ts1 w1 ts2 w2,
         (forall acc log, load_tables before acc log = (Ok (acc ++ ts1), log ++ w1))
         /\ (forall acc log, load_tables after acc log = (Ok (acc ++ ts2), log ++ w2))
         /\ (forall acc log,
               load_tables (before ++ f :: after) acc log
               = (Ok (acc ++ ts1 ++ ts2),
                  log ++ w1
                  ++ [Warning ("Unsupported table file: " +:+ file_name f)] ++ w2))
         /\ (forall acc log,
               load_tables (before ++ after) acc log
               = (Ok (acc ++ ts1 ++ ts2), log ++ w1 ++ w2)).
Proof.
  intros Hext.
  assert (Hf : forall log,
             load_table f log
             = (Ok None, log ++ [Warning ("Unsupported table file: " +:+ file_name f)])).
  { intros log. rewrite load_table_spec.
    by rewrite (read_table_unsupported f Hext). }
  split; [exact Hf|]. by apply load_tables_skip.
Qed.

(** C9: two runs whose inputs agree on everything but the auto-crop box give
    the same result and the same UI log, and so do two calls of the handler:
    nothing reads the option. *)
Theorem C9_auto_crop_has_no_effect (inp1 inp2 : Inputs)
    (session_cards : list Card) (log : list UiEvent) :
  with_auto_crop false inp1 = with_auto_crop false inp2 ->
  script inp1 session_cards log = script inp2 session_cards log
  /\ forall mapping,
       generate_pptx inp1 session_cards mapping log
       = generate_pptx inp2 session_cards mapping log.
Proof.
  intros Hsame.
  assert (Hscript : forall inp,
            script inp session_cards log
            = script (with_auto_crop false inp) session_cards log)
    by reflexivity.
  assert (Hgen : forall inp mapping,
            generate_pptx inp session_cards mapping log
            = generate_pptx (with_auto_crop false inp) session_cards mapping log)
    by reflexivity.
  split.
  - by rewrite (Hscript inp1), (Hscript inp2), Hsame.
  - intros mapping. by rewrite (Hgen inp1), (Hgen inp2), Hsame.
Qed.

(** C6: where the code departs from the claim.  When the column conversions
    and [slide.shapes.add_chart] return and the formatting of the chart
    (lines 113-117) raises, the exception is caught and the warning "Chart
    could not be added" is given, as the claim has it; but the offending
    chart is not skipped: line 112 has put it on the slide, and there it
    stays.  The rest of the slide is built as usual. *)
Theorem C6_late_chart_failure_keeps_chart inp layout_idx accent prs title_str
    cards_subset imgs_subset cfg cats vals e log :
  column_as_str (cfg_df cfg) (cfg_x cfg) = Ok cats ->
  column_as_float (cfg_df cfg) (cfg_y cfg) = Ok vals ->
  shapes_add_chart (chart_kind (cfg_type cfg)) cats (cfg_series cfg) vals = Ok tt ->
  chart_format (chart_kind (cfg_type cfg)) cats (cfg_series cfg) vals = Raise e ->
  exists slide iw,
    build_slide inp layout_idx accent prs title_str cards_subset imgs_subset
      (Some cfg) log
    = (Ok (mkPrs (slide_layouts prs) (slides prs ++ [slide])),
       log ++ Warning ("Chart could not be added: " +:+ e) :: iw)
    /\ charts slide = [chart_of cfg cats vals]
    /\ rendered_cards slide = take 4 cards_subset
    /\ ImageOutcome imgs_subset (pictures slide) iw.
Proof.
  intros Hcats Hvals Hadd Hfmt.
  destruct (build_slide_spec inp layout_idx accent title_str cards_subset
              imgs_subset (Some cfg)) as (slide & w & HB & Hrun).
  destruct (Built_chart_placed _ _ _ _ _ _ _ _ _ _ _ HB Hcats Hvals Hadd)
    as (Hchart & iw & -> & Hi).
  rewrite Hfmt in Hrun. exists slide, iw. split_and!; try done.
  by eapply Built_rendered_cards.
Qed.

(** C10, amended: at most 8 cards are rendered in the whole deck, so with more
    than 8 queued cards some are never rendered.  With two slides the first
    shows queue positions 1 to 4 and the second the four positions behind
    [h = max 4 (ceil (N/2))]; the cards left out are positions 5 to [h], from
    the middle of the queue, and the positions behind [h + 4], at its end:
    there are [N - (h + 4)] of those, none for [N = 9] and at least one from
    [N = 10] on. *)
Theorem C10_rendered_and_dropped (inp : Inputs) (cards : list Card)
    (mapping : option Table * option Label * option Label)
    (log : list UiEvent) :
  exists prs log',
    generate_pptx inp cards mapping log = (Ok prs, log')
    /\ let shown := concat (map rendered_cards (generated_slides inp prs)) in
       length shown <= 8
       /\ (8 < length cards -> length shown < length cards)
       /\ (8 < length cards -> (2 <= max_slides inp)%Z ->
           let h := Nat.max 4 ((length cards + 1) / 2) in
           let middle := take (h - 4) (drop 4 cards) in
           let tail := drop (h + 4) cards in
           shown = take 4 cards ++ take 4 (drop h cards)
           /\ cards = take 4 cards ++ middle ++ take 4 (drop h cards) ++ tail
           /\ 0 < length middle
           /\ length tail = length cards - (h + 4)
           /\ (0 < length tail <-> 10 <= length cards))
       /\ (make_chart_cfg inp mapping = None -> screenshots inp = [] ->
           log' = log ++ download inp prs).
Proof.
  destruct (generate_pptx_slides inp cards mapping log)
    as (li & prs & s1 & w1 & s2 & w2 & Hrun & HB1 & HB2 & Hgen & _).
  eexists prs, _. split; [exact Hrun|].
  assert (Hsilent : make_chart_cfg inp mapping = None -> screenshots inp = [] ->
                    w1 = [] /\ w2 = []).
  { intros Hcfg Himgs. rewrite Hcfg, Himgs in *.
    destruct (use_two_slides _ _ _); cbn [split_assets fst snd] in HB1, HB2;
      rewrite ?take_nil, ?drop_nil in *;
      split; eapply Built_silent; eassumption. }
  apply Built_rendered_cards in HB1, HB2.
  rewrite Hgen. clear Hgen Hrun.
  pose proof (Nat.div_mod_eq (length cards + 1) 2) as Hdiv.
  pose proof (Nat.mod_upper_bound (length cards + 1) 2) as Hmod.
  destruct (use_two_slides _ _ _) eqn:Htwo; cbn [split_assets fst snd] in *;
    cbn [map concat]; rewrite app_nil_r, ?length_app, HB1, ?HB2;
    rewrite ?length_take, ?length_drop.
  - split; [lia|]. split; [lia|]. split.
    + intros Hmany _.
      rewrite take_take. replace (4 `min` _) with 4 by lia.
      split; [done|]. split; [|lia].
      set (h := Nat.max 4 ((length cards + 1) / 2)).
      assert (Hh : 4 <= h) by lia.
      rewrite <- (drop_drop cards 4 h), take_drop.
      replace (drop h cards) with (drop (h - 4) (drop 4 cards))
        by (rewrite drop_drop; f_equal; lia).
      by rewrite !take_drop.
    + intros Hcfg Himgs. by destruct (Hsilent Hcfg Himgs) as [-> ->].
  - split; [lia|]. split; [lia|]. split.
    + intros Hmany Hmax.
      apply not_true_iff_false in Htwo. exfalso. apply Htwo.
      apply use_two_slides_true. lia.
    + intros Hcfg Himgs. by destruct (Hsilent Hcfg Himgs) as [-> _].
Qed.

(** * Further properties *)

(** ** The cards and the images that are left out *)

(** The cards that are not rendered leave no trace: two queues of the same
    length that agree on the first four cards and on the four cards behind
    position [max 4 (ceil (N/2))] give the same presentation and the same
    log, whatever the other cards are. *)
Theorem dropped_cards_leave_no_trace (inp : Inputs) (cards cards' : list Card)
    (mapping : option Table * option Label * option Label)
    (log : list UiEvent) :
  length cards = length cards' ->
  take 4 cards = take 4 cards' ->
  (let h := Nat.max 4 ((length cards + 1) / 2) in
   take 4 (drop h cards) = take 4 (drop h cards')) ->
  generate_pptx inp cards mapping log = generate_pptx inp cards' mapping log.
Proof.
  intros Hlen Hfirst Hsecond. unfold generate_pptx. rewrite <- Hlen.
  set (h := Nat.max 4 ((length cards + 1) / 2)) in *.
  assert (Hh : 4 `min` h = 4) by lia.
  destruct (use_two_slides _ _ _); cbn [split_assets];
    fold h; rewrite <- ?Hlen; fold h.
  - apply St_bind_ext.
    { apply build_slide_agree; [by rewrite !take_take, Hh|done]. }
    intros prs1 l1. apply St_bind_ext; [|done].
    by apply build_slide_agree.
  - apply St_bind_ext; [|done]. by apply build_slide_agree.
Qed.

(** The handler reads the uploaded images through their number, the first
    image and the image behind position [max 1 (ceil (M/2))] only. *)
Lemma generate_pptx_images_agree (inp : Inputs) (imgs imgs' : list UploadedFile)
    (cards : list Card)
    (mapping : option Table * option Label * option Label)
    (log : list UiEvent) :
  length imgs = length imgs' ->
  take 1 imgs = take 1 imgs' ->
  (let h := Nat.max 1 ((length imgs + 1) / 2) in
   take 1 (drop h imgs) = take 1 (drop h imgs')) ->
  generate_pptx (with_screenshots imgs inp) cards mapping log
  = generate_pptx (with_screenshots imgs' inp) cards mapping log.
Proof.
  intros Hlen Hfirst Hsecond. unfold generate_pptx.
  cbn [with_screenshots screenshots template_file max_slides accent_color
       title_text now].
  rewrite <- Hlen.
  set (h := Nat.max 1 ((length imgs + 1) / 2)) in *.
  assert (Hh : 1 `min` h = 1) by lia.
  assert (Hbuild : forall li accent prs title cs i i' cfg l,
            take 1 i = take 1 i' ->
            build_slide (with_screenshots imgs inp) li accent prs title cs i cfg l
            = build_slide (with_screenshots imgs' inp) li accent prs title cs i'
                cfg l).
  { intros li accent prs title cs i i' cfg l Hi.
    rewrite (build_slide_agree _ _ _ _ _ cs cs i i' _ _ eq_refl Hi).
    reflexivity. }
  assert (Hcfg : make_chart_cfg (with_screenshots imgs inp) mapping
                 = make_chart_cfg (with_screenshots imgs' inp) mapping)
    by reflexivity.
  rewrite Hcfg.
  destruct (use_two_slides _ _ _); cbn [split_assets];
    fold h; rewrite <- ?Hlen; fold h.
  - apply St_bind_ext.
    { apply Hbuild. by rewrite !take_take, Hh. }
    intros prs1 l1. apply St_bind_ext.
    { by apply Hbuild. }
    intros prs2 l2. reflexivity.
  - apply St_bind_ext; [by apply Hbuild|].
    intros prs1 l1. apply St_bind_ext; [done|].
    intros prs2 l2. reflexivity.
Qed.

(** The images that the handler does not embed leave no trace in what it
    returns: two uploads of the same number of images that agree on the first
    image and on the image behind position [max 1 (ceil (M/2))] make the
    handler return the same presentation and the same log, so it neither
    embeds nor reports any other image.  The preview of the run, which is no
    part of the handler, opens every image: the two runs are the same when
    both previews return. *)
Theorem other_images_leave_no_trace (inp : Inputs) (imgs imgs' : list UploadedFile)
    (cards : list Card)
    (mapping : option Table * option Label * option Label)
    (log : list UiEvent) :
  length imgs = length imgs' ->
  take 1 imgs = take 1 imgs' ->
  (let h := Nat.max 1 ((length imgs + 1) / 2) in
   take 1 (drop h imgs) = take 1 (drop h imgs')) ->
  generate_pptx (with_screenshots imgs inp) cards mapping log
  = generate_pptx (with_screenshots imgs' inp) cards mapping log
  /\ (preview imgs = Ok tt -> preview imgs' = Ok tt ->
      script (with_screenshots imgs inp) cards log
      = script (with_screenshots imgs' inp) cards log).
Proof.
  intros Hlen Hfirst Hsecond.
  split; [by apply generate_pptx_images_agree|].
  intros Hprev Hprev'. unfold script, script_body, mbind, St_bind, lift.
  cbn [with_screenshots data_files screenshots generate_clicked].
  rewrite Hprev, Hprev'.
  change (queue_card (with_screenshots imgs inp) cards)
    with (queue_card (with_screenshots imgs' inp) cards).
  destruct (load_tables _ _ _) as [[ts|e] l]; [|done].
  change (chart_mapping (with_screenshots imgs inp) ts)
    with (chart_mapping (with_screenshots imgs' inp) ts).
  destruct (generate_clicked inp); [|done].
  by rewrite (generate_pptx_images_agree inp imgs imgs' _ _ _ Hlen Hfirst Hsecond).
Qed.

(** ** Charts, notes, titles and layouts of the generated slides *)

Lemma Built_notes inp layout_idx accent title_str cards_subset imgs_subset
    chart_cfg slide w :
  Built inp layout_idx accent title_str cards_subset imgs_subset chart_cfg
    slide w ->
  notes slide
  = if include_speaker_notes inp
    then Some (join nl (map notes_line (rendered_cards slide)
                        ++ chart_note chart_cfg))
    else None.
Proof.
  intros HB. rewrite (Built_rendered_cards _ _ _ _ _ _ _ _ _ HB).
  destruct HB as (added & cpost & ipost & cw & iw & _ & _ & _ & _ & _ & _
                  & -> & _).
  unfold notes_block, chart_note.
  by destruct (include_speaker_notes inp), chart_cfg.
Qed.

Lemma Built_title inp layout_idx accent title_str cards_subset imgs_subset
    chart_cfg slide w :
  Built inp layout_idx accent title_str cards_subset imgs_subset chart_cfg
    slide w ->
  slide_title slide = Some title_str.
Proof.
  intros (added & cpost & ipost & cw & iw & _ & _ & _ & _ & _ & _ & -> & _).
  unfold slide_title. rewrite shapes_notes_block. cbn [shapes].
  unfold start_shapes. rewrite <- app_assoc, List.filter_app.
  by rewrite new_slide_shapes_filter.
Qed.

Lemma Built_no_chart inp layout_idx accent title_str cards_subset imgs_subset
    slide w :
  Built inp layout_idx accent title_str cards_subset imgs_subset None slide w ->
  charts slide = [] /\ length w <= 1.
Proof.
  intros HB.
  destruct (Built_outcomes _ _ _ _ _ _ _ _ _ HB) as (cw & iw & -> & Hc & Hi).
  destruct Hc as [_|cfg sh Hcfg _ _|cfg e Hcfg _|cfg sh e Hcfg _ _]; try done.
  split; [done|]. destruct Hi; cbn; lia.
Qed.

(** The warnings of a slide with no chart mapped are about its images. *)
Lemma Built_image_warnings inp layout_idx accent title_str cards_subset
    imgs_subset slide w :
  Built inp layout_idx accent title_str cards_subset imgs_subset None slide w ->
  Forall (fun ev => exists img e, In img imgs_subset /\ ev = embed_warning img e) w.
Proof.
  intros HB.
  destruct (Built_outcomes _ _ _ _ _ _ _ _ _ HB) as (cw & iw & -> & Hc & Hi).
  destruct Hc as [_|cfg sh Hcfg _ _|cfg e Hcfg _|cfg sh e Hcfg _ _]; try done.
  destruct Hi as [_|img rest png _ _|img rest e -> _]; cbn [app];
    repeat constructor.
  exists img, e. split; [by left|done].
Qed.

Lemma In_take {A : Type} (n : nat) (l : list A) (x : A) : In x (take n l) -> In x l.
Proof.
  intros Hin. rewrite <- (take_drop n l). apply in_or_app. by left.
Qed.

Lemma In_drop {A : Type} (n : nat) (l : list A) (x : A) : In x (drop n l) -> In x l.
Proof.
  intros Hin. rewrite <- (take_drop n l). apply in_or_app. by right.
Qed.

Lemma Built_counts inp layout_idx accent title_str cards_subset imgs_subset
    chart_cfg slide w :
  Built inp layout_idx accent title_str cards_subset imgs_subset chart_cfg
    slide w ->
  length (charts slide) <= 1 /\ length w <= 2.
Proof.
  intros HB.
  destruct (Built_outcomes _ _ _ _ _ _ _ _ _ HB) as (cw & iw & -> & Hc & Hi).
  destruct Hc, Hi; cbn; lia.
Qed.

Ltac forall_list :=
  repeat match goal with
         | |- Forall _ (_ :: _) => constructor
         | |- Forall _ [] => constructor
         end.

(** Only the first slide of a deck can carry a chart, and it carries at most
    one: every slide generated after the first has none. *)
Theorem chart_only_on_first_slide (inp : Inputs) (cards : list Card)
    (mapping : option Table * option Label * option Label)
    (log : list UiEvent) :
  exists prs log',
    generate_pptx inp cards mapping log = (Ok prs, log')
    /\ Forall (fun s => length (charts s) <= 1) (take 1 (generated_slides inp prs))
    /\ Forall (fun s => charts s = []) (drop 1 (generated_slides inp prs)).
Proof.
  destruct (generate_pptx_slides inp cards mapping log)
    as (li & prs & s1 & w1 & s2 & w2 & Hrun & HB1 & HB2 & Hgen & _).
  eexists prs, _. split; [exact Hrun|]. rewrite Hgen.
  apply Built_counts in HB1. apply Built_no_chart in HB2.
  destruct (use_two_slides _ _ _); cbn; (split; forall_list; tauto).
Qed.

(** The mapping gives no chart configuration exactly when no table is chosen
    or a column choice is false for Python (no choice, or a label such as the
    empty string or the number 0).  Then no generated slide carries a chart
    and the handler gives no chart warning: every event before the success
    message is the warning that an uploaded image could not be embedded, and
    there is at most one per slide. *)
Theorem no_chart_mapping_no_chart (inp : Inputs) (cards : list Card)
    (mapping : option Table * option Label * option Label)
    (log : list UiEvent) :
  (make_chart_cfg inp mapping = None
   <-> mapping.1.1 = None \/ choice_truthy mapping.1.2 = false
       \/ choice_truthy mapping.2 = false)
  /\ (make_chart_cfg inp mapping = None ->
      exists prs w,
        generate_pptx inp cards mapping log
        = (Ok prs, log ++ w ++ download inp prs)
        /\ Forall (fun s => charts s = []) (generated_slides inp prs)
        /\ Forall (fun ev => exists img e,
                     In img (screenshots inp) /\ ev = embed_warning img e) w
        /\ length w <= length (generated_slides inp prs)).
Proof.
  split.
  { destruct mapping as [[[df|] [x|]] [y|]]; cbn;
      try (split; [intros _|done]; tauto).
    destruct (label_truthy x), (label_truthy y); cbn;
      (split; [intros Hcfg|intros [Hcfg|[Hcfg|Hcfg]]]); try done; tauto. }
  intros Hnone.
  destruct (generate_pptx_slides inp cards mapping log)
    as (li & prs & s1 & w1 & s2 & w2 & Hrun & HB1 & HB2 & Hgen & _).
  rewrite Hnone in HB1.
  pose proof (Built_image_warnings _ _ _ _ _ _ _ _ HB1) as Hw1.
  pose proof (Built_image_warnings _ _ _ _ _ _ _ _ HB2) as Hw2.
  apply Built_no_chart in HB1, HB2.
  exists prs, (w1 ++ if use_two_slides (length cards) (length (screenshots inp))
                        (max_slides inp) then w2 else []).
  split; [by rewrite <- app_assoc|]. rewrite Hgen.
  assert (Hin : forall imgs (w : list UiEvent),
            (forall img, In img imgs -> In img (screenshots inp)) ->
            Forall (fun ev => exists img e, In img imgs /\ ev = embed_warning img e) w ->
            Forall (fun ev => exists img e,
                      In img (screenshots inp) /\ ev = embed_warning img e) w).
  { intros imgs w Hsub Hall. eapply Forall_impl; [exact Hall|].
    intros ev (img & e & Himg & ->). exists img, e. split; [by apply Hsub|done]. }
  destruct (use_two_slides _ _ _); cbn [split_assets fst snd] in Hw1, Hw2;
    rewrite length_app; cbn [length];
    (split; [forall_list; tauto|]); (split; [|cbn; lia]).
  - apply Forall_app. split.
    + eapply Hin; [|exact Hw1]. intros img. apply In_take.
    + eapply Hin; [|exact Hw2]. intros img. apply In_drop.
  - rewrite app_nil_r. by eapply Hin; [|exact Hw1].
Qed.

(** A run with no uploaded data file in which the preview of the screenshots
    returns generates a deck without any chart. *)
Theorem no_data_file_no_chart (inp : Inputs) (session_cards : list Card)
    (log : list UiEvent) :
  data_files inp = [] ->
  generate_clicked inp = true ->
  preview (screenshots inp) = Ok tt ->
  exists prs log',
    script inp session_cards log
    = (Ok (queue_card inp session_cards, Some prs), log')
    /\ Forall (fun s => charts s = []) (generated_slides inp prs).
Proof.
  intros Hfiles Hgen Hprev.
  destruct (script_generate inp Hgen Hprev) as (ts & w & _ & Hload & ->).
  destruct (no_files_no_chart inp ts w Hfiles Hload) as [-> Hnone].
  destruct (generate_pptx_slides inp (queue_card inp session_cards)
              (chart_mapping inp ts) (log ++ []))
    as (li & prs & s1 & w1 & s2 & w2 & -> & HB1 & HB2 & Hslides & _).
  rewrite Hnone in HB1. apply Built_no_chart in HB1, HB2.
  eexists prs, _. split; [done|]. rewrite Hslides.
  destruct (use_two_slides _ _ _); forall_list; tauto.
Qed.

(** The speaker notes of a slide list exactly the cards rendered on it, one
    line each, followed by the chart line when a chart is mapped; without the
    option the slide has no notes. *)
Theorem speaker_notes_list_rendered_cards inp layout_idx accent prs title_str
    cards_subset imgs_subset chart_cfg log :
  exists slide log',
    build_slide inp layout_idx accent prs title_str cards_subset imgs_subset
      chart_cfg log
    = (Ok (mkPrs (slide_layouts prs) (slides prs ++ [slide])), log')
    /\ notes slide
       = if include_speaker_notes inp
         then Some (join nl (map notes_line (rendered_cards slide)
                             ++ chart_note chart_cfg))
         else None.
Proof.
  destruct (build_slide_spec inp layout_idx accent title_str cards_subset
              imgs_subset chart_cfg) as (slide & w & HB & Hrun).
  exists slide, (log ++ w). split; [apply Hrun|]. by eapply Built_notes.
Qed.

(** When [add_chart] raises, [build_slide] gives the warning that the chart
    could not be added, and the charts of the slide are what the call had put
    on it before it raised: nothing, or the chart itself when the formatting
    raised.  Either way the speaker notes still end with the line that
    describes the chart. *)
Theorem failed_chart_stays_in_notes inp layout_idx accent prs title_str
    cards_subset imgs_subset cfg s0 s1 e log :
  add_chart s0 50 630 1150 230 (cfg_df cfg) (cfg_x cfg) (cfg_y cfg)
    (cfg_type cfg) (cfg_series cfg) = (Raise e, s1) ->
  include_speaker_notes inp = true ->
  exists slide iw,
    build_slide inp layout_idx accent prs title_str cards_subset imgs_subset
      (Some cfg) log
    = (Ok (mkPrs (slide_layouts prs) (slides prs ++ [slide])),
       log ++ Warning ("Chart could not be added: " +:+ e) :: iw)
    /\ shapes s1 = shapes s0 ++ charts slide
    /\ length (charts slide) <= 1
    /\ notes slide
       = Some (join nl (map notes_line (rendered_cards slide)
                        ++ ["- Chart: " +:+ cfg_type cfg +:+ " of "
                            +:+ label_str (cfg_y cfg) +:+ " by "
                            +:+ label_str (cfg_x cfg)])).
Proof.
  intros Hraise Hnotes.
  destruct (build_slide_spec inp layout_idx accent title_str cards_subset
              imgs_subset (Some cfg)) as (slide & w & HB & Hrun).
  pose proof (Built_notes _ _ _ _ _ _ _ _ _ HB) as Hn. rewrite Hnotes in Hn.
  pose proof (Built_counts _ _ _ _ _ _ _ _ _ HB) as [Hone _].
  destruct (Built_outcomes _ _ _ _ _ _ _ _ _ HB) as (cw & iw & -> & Hc & _).
  destruct (ChartOutcome_raised _ _ _ _ _ _ Hc Hraise) as [Hshapes ->].
  exists slide, iw. by split_and!.
Qed.

(** The first generated slide is titled with the title text and the second
    with the title text followed by " (cont.)". *)
Theorem generated_slide_titles (inp : Inputs) (cards : list Card)
    (mapping : option Table * option Label * option Label)
    (log : list UiEvent) :
  exists prs log',
    generate_pptx inp cards mapping log = (Ok prs, log')
    /\ map slide_title (generated_slides inp prs)
       = if use_two_slides (length cards) (length (screenshots inp))
              (max_slides inp)
         then [Some (title_text inp); Some (title_text inp +:+ " (cont.)")]
         else [Some (title_text inp)].
Proof.
  destruct (generate_pptx_slides inp cards mapping log)
    as (li & prs & s1 & w1 & s2 & w2 & Hrun & HB1 & HB2 & Hgen & _).
  eexists prs, _. split; [exact Hrun|]. rewrite Hgen.
  apply Built_title in HB1, HB2.
  destruct (use_two_slides _ _ _); cbn; by rewrite HB1, ?HB2.
Qed.

(** Every generated slide uses the layout 6 when the base presentation has
    more than six layouts and the layout 0 otherwise; with at least one layout
    that index is within the layouts, which generation leaves as they are. *)
Theorem layout_index_in_range (inp : Inputs) (cards : list Card)
    (mapping : option Table * option Label * option Label)
    (log : list UiEvent) :
  let base := create_presentation (file_bytes <$> template_file inp) in
  0 < slide_layouts base ->
  exists prs log',
    generate_pptx inp cards mapping log = (Ok prs, log')
    /\ slide_layouts prs = slide_layouts base
    /\ Forall (fun s => layout s = (if (6 <? slide_layouts base)%nat then 6 else 0)
                        /\ layout s < slide_layouts prs)
         (generated_slides inp prs).
Proof.
  intros base Hpos.
  destruct (generate_pptx_spec inp cards mapping)
    as (s1 & w1 & s2 & w2 & HB1 & HB2 & Hrun).
  specialize (Hrun log). cbn zeta in Hrun. fold base in Hrun, HB1, HB2.
  eexists _, _. split; [exact Hrun|]. split; [done|].
  unfold base. rewrite generated_slides_app. fold base. cbn [slide_layouts].
  apply Built_layout in HB1, HB2.
  assert (Hidx : (if (6 <? slide_layouts base)%nat then 6 else 0)
                 < slide_layouts base).
  { destruct (6 <? slide_layouts base)%nat eqn:Hsix; [|done].
    apply Nat.ltb_lt in Hsix. lia. }
  destruct (use_two_slides _ _ _); forall_list; rewrite ?HB1, ?HB2; done.
Qed.

(** The handler gives at most three warnings, however many images are
    broken: one for the chart and one for the image tried on each slide. *)
Theorem at_most_three_warnings (inp : Inputs) (cards : list Card)
    (mapping : option Table * option Label * option Label)
    (log : list UiEvent) :
  exists prs w,
    generate_pptx inp cards mapping log = (Ok prs, log ++ w ++ download inp prs)
    /\ forallb is_warning w = true
    /\ length w <= 3.
Proof.
  destruct (generate_pptx_slides inp cards mapping log)
    as (li & prs & s1 & w1 & s2 & w2 & Hrun & HB1 & HB2 & _ & _).
  exists prs, (w1 ++ if use_two_slides (length cards) (length (screenshots inp))
                        (max_slides inp) then w2 else []).
  split; [by rewrite <- app_assoc|].
  rewrite forallb_app, length_app, (Built_warnings _ _ _ _ _ _ _ _ _ HB1).
  pose proof (Built_warnings _ _ _ _ _ _ _ _ _ HB2) as Hw2.
  apply Built_counts in HB1. apply Built_no_chart in HB2.
  destruct (use_two_slides _ _ _); cbn; (split; [done|lia]).
Qed.

(** ** The geometry of a slide *)

(** The rectangles the card loop adds are those of the grid slots, from the
    slot it starts at on. *)
Lemma card_loop_boxes (accent : RGB) (cs : list Card) :
  forall (idx : nat) (slide : Slide),
    idx + length cs <= 4 ->
    exists added : list Shape,
      card_loop accent idx cs slide = Ok (add_shapes slide added)
      /\ omap rect_geom added = take (length cs) (drop idx grid_boxes).
Proof.
  induction cs as [|c cs IH]; intros idx slide Hlen.
  - exists []. by rewrite add_shapes_nil.
  - cbn [length] in Hlen.
    assert (exists p, grid_positions !! idx = Some p
                      /\ drop idx grid_boxes
                         = (p.1, p.2, card_w, card_h) :: drop (S idx) grid_boxes)
      as ([left_in top_in] & Hp & Hdrop).
    { destruct idx as [|[|[|[|]]]]; cbn; eauto; lia. }
    cbn [card_loop]. rewrite Hp.
    destruct (IH (S idx)
                (add_kpi_card slide left_in top_in card_w card_h
                   (headline c) (value c) (note c) accent))
      as (added & Hrun & Hboxes); [lia|].
    rewrite Hrun. unfold add_kpi_card. rewrite add_shapes_app.
    eexists. split; [reflexivity|].
    rewrite omap_app, Hboxes, Hdrop. cbn [length take fst snd].
    by destruct (truthy (note c)).
Qed.

Lemma Built_card_boxes inp layout_idx accent title_str cards_subset imgs_subset
    chart_cfg slide w :
  Built inp layout_idx accent title_str cards_subset imgs_subset chart_cfg
    slide w ->
  card_boxes slide = take (length (rendered_cards slide)) grid_boxes.
Proof.
  intros HB. rewrite (Built_rendered_cards _ _ _ _ _ _ _ _ _ HB).
  destruct HB as (added & cpost & ipost & cw & iw & Hrun & _ & _ & _ & Hc & Hi
                  & -> & _).
  destruct (card_loop_boxes accent (take 4 cards_subset) 0
              (mkSlide layout_idx (start_shapes inp layout_idx title_str) None))
    as (added' & Hrun' & Hboxes).
  { rewrite length_take. lia. }
  rewrite Hrun in Hrun'. injection Hrun' as Hadded.
  apply app_inv_head in Hadded. subst added'.
  unfold card_boxes. rewrite shapes_notes_block. cbn [shapes].
  rewrite !omap_app, Hboxes, start_shapes_rects.
  destruct (ChartOutcome_shapes _ _ _ Hc) as (_ & _ & _ & _ & ->).
  destruct (ImageOutcome_shapes _ _ _ Hi) as (_ & _ & _ & _ & ->).
  by rewrite !app_nil_r.
Qed.

(** The card rectangles of a slide are the first grid slots, one per rendered
    card in order; any two of them share no area, and all of them lie above
    the band at 6.3in where the chart and the picture go. *)
Theorem cards_fill_grid_slots_apart inp layout_idx accent prs title_str
    cards_subset imgs_subset chart_cfg log :
  exists slide log',
    build_slide inp layout_idx accent prs title_str cards_subset imgs_subset
      chart_cfg log
    = (Ok (mkPrs (slide_layouts prs) (slides prs ++ [slide])), log')
    /\ card_boxes slide = take (length (rendered_cards slide)) grid_boxes
    /\ (forall i j b b',
          i <> j ->
          card_boxes slide !! i = Some b ->
          card_boxes slide !! j = Some b' ->
          apart b b')
    /\ Forall (fun b => inside b (50, 150, 1150, 480)%Z) (card_boxes slide).
Proof.
  destruct (build_slide_spec inp layout_idx accent title_str cards_subset
              imgs_subset chart_cfg) as (slide & w & HB & Hrun).
  exists slide, (log ++ w). split; [apply Hrun|].
  rewrite (Built_card_boxes _ _ _ _ _ _ _ _ _ HB). split; [done|]. split.
  - intros i j b b' Hne Hi Hj.
    apply lookup_take_Some in Hi as [Hi _], Hj as [Hj _].
    destruct i as [|[|[|[|i]]]], j as [|[|[|[|j]]]]; try done;
      cbn in Hi, Hj; injection Hi as <-; injection Hj as <-;
      unfold apart, card_w, card_h; cbn; lia.
  - apply Forall_take. unfold grid_boxes, card_w, card_h. cbn.
    forall_list; unfold inside; lia.
Qed.

(** The chart of a slide is the chart of the mapping, of type line only for
    the chart type "line" and named after the series; it and the picture are
    both placed at left 0.5in, top 6.3in with width 11.5in, the picture after
    the chart: on a slide with both, they cover the same place. *)
Theorem chart_and_picture_share_place inp layout_idx accent prs title_str
    cards_subset imgs_subset chart_cfg log :
  exists slide log',
    build_slide inp layout_idx accent prs title_str cards_subset imgs_subset
      chart_cfg log
    = (Ok (mkPrs (slide_layouts prs) (slides prs ++ [slide])), log')
    /\ Forall (fun sh => exists cfg cats vals,
                 chart_cfg = Some cfg
                 /\ column_as_str (cfg_df cfg) (cfg_x cfg) = Ok cats
                 /\ column_as_float (cfg_df cfg) (cfg_y cfg) = Ok vals
                 /\ sh = ChartFrame
                           (if String.eqb (cfg_type cfg) "line"
                            then LINE_MARKERS else COLUMN_CLUSTERED)
                           (50, 630, 1150, 230)%Z cats (cfg_series cfg) vals)
         (charts slide)
    /\ Forall (fun sh => exists png, sh = Picture 50 630 (Some 1150%Z) None png)
         (pictures slide)
    /\ exists before, shapes slide = before ++ charts slide ++ pictures slide.
Proof.
  destruct (build_slide_spec inp layout_idx accent title_str cards_subset
              imgs_subset chart_cfg) as (slide & w & HB & Hrun).
  exists slide, (log ++ w). split; [apply Hrun|].
  destruct (Built_outcomes _ _ _ _ _ _ _ _ _ HB) as (cw' & iw' & _ & Hc' & Hi').
  destruct HB as (added & cpost & ipost & cw & iw & _ & _ & Hpic & Hchart & Hc
                  & Hi & Hslide & _).
  assert (Hcs : charts slide = cpost /\ pictures slide = ipost).
  { subst slide. unfold charts, pictures. rewrite shapes_notes_block.
    cbn [shapes].
    rewrite !List.filter_app, Hpic, Hchart, !start_shapes_filter by done.
    destruct (ChartOutcome_shapes _ _ _ Hc) as (-> & -> & _).
    destruct (ImageOutcome_shapes _ _ _ Hi) as (-> & -> & _).
    cbn [app]. by rewrite app_nil_r. }
  destruct Hcs as [-> ->]. split_and!.
  - assert (Hplaced : forall cfg sh returned,
              add_chart (mkSlide 0 [] None) 50 630 1150 230 (cfg_df cfg)
                (cfg_x cfg) (cfg_y cfg) (cfg_type cfg) (cfg_series cfg)
              = (returned, add_shapes (mkSlide 0 [] None) [sh]) ->
              exists cats vals,
                column_as_str (cfg_df cfg) (cfg_x cfg) = Ok cats
                /\ column_as_float (cfg_df cfg) (cfg_y cfg) = Ok vals
                /\ sh = ChartFrame
                          (if String.eqb (cfg_type cfg) "line"
                           then LINE_MARKERS else COLUMN_CLUSTERED)
                          (50, 630, 1150, 230)%Z cats (cfg_series cfg) vals).
    { intros cfg sh returned Hrun'. unfold add_chart in Hrun'.
      destruct (column_as_str _ _) as [cats|]; [|done].
      destruct (column_as_float _ _) as [vals|]; [|done].
      destruct (shapes_add_chart _ _ _ _) as [[]|]; [|done].
      injection Hrun' as _ <-. by exists cats, vals. }
    destruct Hc as [_|cfg sh Hcfg _ Hok|cfg e _ _|cfg sh e Hcfg _ Hok];
      forall_list;
      destruct (Hplaced _ _ _ (Hok _)) as (cats & vals & Hcats & Hvals & ->);
      by exists cfg, cats, vals.
  - destruct Hi; forall_list. by eexists.
  - subst slide. rewrite shapes_notes_block. cbn [shapes].
    exists (start_shapes inp layout_idx title_str ++ added).
    by rewrite <- app_assoc.
Qed.

(** ** The card queue over a session *)

(** The queue only grows at its end: after any runs, whatever buttons were
    pressed in them, the session state holds the cards it held before,
    followed by the form card of every run in which "Add card" was pressed,
    in the order of the runs.  Generating removes nothing. *)
Theorem queue_is_append_only (runs : list Inputs) :
  forall (cards0 : list Card) (log : list UiEvent),
    exists out log',
      session runs cards0 log
      = (Ok (cards0 ++ map form_card (List.filter add_card runs), out), log').
Proof.
  induction runs as [|r runs IH]; intros cards0 log.
  - exists None, log. cbn. by rewrite app_nil_r.
  - cbn [session List.filter].
    destruct (script_queue r cards0 log) as (out & log1 & Hrun).
    unfold mbind, St_bind. rewrite Hrun.
    assert (Hq : queue_card r cards0
                 ++ map form_card (List.filter add_card runs)
                 = cards0
                   ++ map form_card
                        (if add_card r then r :: List.filter add_card runs
                         else List.filter add_card runs)).
    { unfold queue_card. destruct (add_card r); [|done].
      by rewrite <- app_assoc. }
    destruct runs as [|r' runs].
    + exists out, log1. rewrite <- Hq. cbn. by rewrite app_nil_r.
    + destruct (IH (queue_card r cards0) log1) as (out' & log' & Hrest).
      exists out', log'. by rewrite <- Hq.
Qed.

(** ** Tables, files and labels *)

(** Each uploaded file gives either one table or one warning. *)
Lemma load_tables_count (files : list UploadedFile) :
  exists ts w,
    (forall acc log, load_tables files acc log = (Ok (acc ++ ts), log ++ w))
    /\ forallb is_warning w = true
    /\ length ts + length w = length files.
Proof.
  induction files as [|f files (ts & w & IH & Hw & Hlen)].
  - exists [], []. split; [|done]. intros acc log. cbn. by rewrite !app_nil_r.
  - pose proof (load_table_spec f) as Hf.
    destruct (read_table f) as [[t|]|e].
    + exists (t :: ts), w. split; [|split; [done|cbn; lia]].
      intros acc log. cbn [load_tables]. unfold mbind, St_bind.
      rewrite Hf, IH. by rewrite <- app_assoc.
    + exists ts, (Warning ("Unsupported table file: " +:+ file_name f) :: w).
      split; [|split; [exact Hw|cbn; lia]].
      intros acc log. cbn [load_tables]. unfold mbind, St_bind.
      rewrite Hf, IH. by rewrite <- app_assoc.
    + exists ts, (Warning ("Could not read " +:+ file_name f +:+ ": " +:+ e) :: w).
      split; [|split; [exact Hw|cbn; lia]].
      intros acc log. cbn [load_tables]. unfold mbind, St_bind.
      rewrite Hf, IH. by rewrite <- app_assoc.
Qed.

(** The loading loop gives one table or one warning per uploaded file, so
    there are never more tables than files: the label of every option of the
    "Select a table" box, [data_files[i].name] for [i] below the number of
    tables, is found without an index error. *)
Theorem tables_match_files (inp : Inputs) :
  exists ts w,
    (forall acc log,
       load_tables (data_files inp) acc log = (Ok (acc ++ ts), log ++ w))
    /\ forallb is_warning w = true
    /\ length ts + length w = length (data_files inp)
    /\ forall i, i < length ts -> exists name, table_label inp i = Ok name.
Proof.
  destruct (load_tables_count (data_files inp)) as (ts & w & Hload & Hw & Hlen).
  exists ts, w. split_and!; try done.
  intros i Hi. unfold table_label.
  destruct (data_files inp !! i) as [f|] eqn:Hf; [by eexists|].
  apply lookup_ge_None in Hf. lia.
Qed.

(** The labels follow the files, not the tables: when the first uploaded file
    gives no table and the second gives one, that table is the first option
    of the "Select a table" box, and the label shown for it is the name of
    the first file. *)
Theorem table_label_names_failed_file (inp : Inputs) (bad good : UploadedFile)
    (rest : list UploadedFile) (t : Table) :
  data_files inp = bad :: good :: rest ->
  (read_table bad = Ok None \/ exists e, read_table bad = Raise e) ->
  read_table good = Ok (Some t) ->
  exists ts w,
    load_tables (data_files inp) [] [] = (Ok (t :: ts), w)
    /\ table_label inp 0 = Ok (file_name bad)
    /\ (table_choice inp = 0 -> (chart_mapping inp (t :: ts)).1.1 = Some t).
Proof.
  intros Hfiles Hbad Hgood.
  destruct (load_tables_count rest) as (ts & w & Hload & _ & _).
  assert (Hpick : table_choice inp = 0 ->
                  (chart_mapping inp (t :: ts)).1.1 = Some t).
  { intros Hchoice. unfold chart_mapping. by rewrite Hchoice. }
  assert (Hrun : exists w',
            load_tables (bad :: good :: rest) [] [] = (Ok (t :: ts), w')).
  { cbn [load_tables]. unfold mbind at 1, St_bind at 1.
    rewrite load_table_spec.
    destruct Hbad as [->|[e ->]];
      unfold mbind at 1, St_bind at 1; rewrite load_table_spec, Hgood, Hload;
      by eexists. }
  destruct Hrun as [w' Hrun].
  exists ts, w'. unfold table_label. rewrite Hfiles. by split_and!.
Qed.

(** ** File names *)

Lemma lower_char_idemp (c : ascii) : lower_char (lower_char c) = lower_char c.
Proof. destruct c as [[] [] [] [] [] [] [] []]; reflexivity. Qed.

Lemma lower_idemp (s : string) : lower (lower s) = lower s.
Proof.
  induction s as [|c s IH]; [done|]. cbn. by rewrite lower_char_idemp, IH.
Qed.

(** The case of a file name does not matter to the loader: two files with
    the same bytes whose names differ only in the case of ASCII letters are
    parsed the same way and give the same table; renaming a file to its
    lower-cased name changes nothing but the name in the warning. *)
Theorem file_name_case_is_ignored (f1 f2 : UploadedFile) :
  lower (file_name f1) = lower (file_name f2) ->
  file_bytes f1 = file_bytes f2 ->
  read_table f1 = read_table f2
  /\ supported_extension (file_name f1) = supported_extension (file_name f2)
  /\ (forall log, (load_table f1 log).1 = (load_table f2 log).1)
  /\ read_table (mkFile (lower (file_name f1)) (file_bytes f1)) = read_table f1.
Proof.
  intros Hname Hbytes.
  assert (Hread : read_table f1 = read_table f2).
  { unfold read_table. by rewrite Hname, Hbytes. }
  split_and!; try done.
  - unfold supported_extension. by rewrite Hname.
  - intros log. rewrite !load_table_spec, Hread.
    by destruct (read_table f2) as [[t|]|e].
  - unfold read_table. cbn [file_name file_bytes]. by rewrite lower_idemp.
Qed.

(** ** The accent colour, and the slide when nothing fails *)

Lemma card_loop_rectangles (accent : RGB) (cs : list Card) :
  forall (idx : nat) (slide : Slide),
    idx + length cs <= 4 ->
    exists added : list Shape,
      card_loop accent idx cs slide = Ok (add_shapes slide added)
      /\ Forall (fun sh => exists g,
                   sh = AutoShape 1 g (255, 255, 255)%Z accent 2)
           (List.filter is_rectangle added).
Proof.
  induction cs as [|c cs IH]; intros idx slide Hlen.
  - exists []. by rewrite add_shapes_nil.
  - cbn [length] in Hlen.
    assert (exists p, grid_positions !! idx = Some p) as [[left_in top_in] Hp].
    { destruct idx as [|[|[|[|]]]]; cbn; eauto; lia. }
    cbn [card_loop]. rewrite Hp.
    destruct (IH (S idx)
                (add_kpi_card slide left_in top_in card_w card_h
                   (headline c) (value c) (note c) accent))
      as (added & Hrun & Hrects); [lia|].
    rewrite Hrun. unfold add_kpi_card. rewrite add_shapes_app.
    eexists. split; [reflexivity|].
    rewrite List.filter_app.
    destruct accent as [[r g] b]. apply Forall_app. split; [|done].
    destruct (truthy (note c)); cbn; forall_list; by eexists.
Qed.

Lemma Built_rectangles inp layout_idx accent title_str cards_subset imgs_subset
    chart_cfg slide w :
  Built inp layout_idx accent title_str cards_subset imgs_subset chart_cfg
    slide w ->
  Forall (fun sh => exists g, sh = AutoShape 1 g (255, 255, 255)%Z accent 2)
    (rectangles slide).
Proof.
  intros (added & cpost & ipost & cw & iw & Hrun & _ & _ & _ & Hc & Hi & -> & _).
  destruct (card_loop_rectangles accent (take 4 cards_subset) 0
              (mkSlide layout_idx (start_shapes inp layout_idx title_str) None))
    as (added' & Hrun' & Hrects).
  { rewrite length_take. lia. }
  rewrite Hrun in Hrun'. injection Hrun' as Hadded.
  apply app_inv_head in Hadded. subst added'.
  unfold rectangles. rewrite shapes_notes_block. cbn [shapes].
  rewrite !List.filter_app, start_shapes_filter by done.
  destruct (ChartOutcome_shapes _ _ _ Hc) as (_ & _ & -> & _).
  destruct (ImageOutcome_shapes _ _ _ Hi) as (_ & _ & -> & _).
  by rewrite !app_nil_r.
Qed.

(** Every card of every generated slide is framed by a rectangle with a white
    fill and a 2pt line in the accent colour of the inputs. *)
Theorem accent_frames_every_card (inp : Inputs) (cards : list Card)
    (mapping : option Table * option Label * option Label)
    (log : list UiEvent) :
  exists prs log',
    generate_pptx inp cards mapping log = (Ok prs, log')
    /\ Forall (fun s =>
                 length (rectangles s) = length (rendered_cards s)
                 /\ Forall (fun sh => exists g,
                              sh = AutoShape 1 g (255, 255, 255)%Z
                                     (accent_color inp) 2)
                      (rectangles s))
         (generated_slides inp prs).
Proof.
  destruct (generate_pptx_slides inp cards mapping log)
    as (li & prs & s1 & w1 & s2 & w2 & Hrun & HB1 & HB2 & Hgen & _).
  eexists prs, _. split; [exact Hrun|]. rewrite Hgen.
  assert (Hcount : forall title cs imgs cfg s w,
            Built inp li (accent_color inp) title cs imgs cfg s w ->
            length (rectangles s) = length (rendered_cards s)).
  { intros title cs imgs cfg s w HB.
    pose proof (Built_card_boxes _ _ _ _ _ _ _ _ _ HB) as Hboxes.
    pose proof (Built_rendered_cards _ _ _ _ _ _ _ _ _ HB) as Hshown.
    apply (f_equal length) in Hboxes, Hshown.
    rewrite length_take in Hboxes. rewrite length_take in Hshown.
    change (length grid_boxes) with 4 in Hboxes.
    assert (Hsame : length (rectangles s) = length (card_boxes s)).
    { unfold card_boxes, rectangles.
      induction (shapes s) as [|[] l IHl]; cbn; congruence. }
    lia. }
  pose proof (Hcount _ _ _ _ _ _ HB1) as Hc1.
  pose proof (Hcount _ _ _ _ _ _ HB2) as Hc2.
  apply Built_rectangles in HB1, HB2.
  destruct (use_two_slides _ _ _); forall_list; done.
Qed.

(** When the column conversions and the chart construction succeed and the
    first image of the subset embeds, the slide gets exactly that chart and
    that picture.  The log gets nothing when the formatting of the chart
    returns, and the warning that the chart could not be added when it
    raises: the chart is on the slide either way. *)
Theorem chart_and_image_placed inp layout_idx accent prs title_str cards_subset
    img rest cfg cats vals png log :
  column_as_str (cfg_df cfg) (cfg_x cfg) = Ok cats ->
  column_as_float (cfg_df cfg) (cfg_y cfg) = Ok vals ->
  shapes_add_chart (chart_kind (cfg_type cfg)) cats (cfg_series cfg) vals = Ok tt ->
  embed img = Ok png ->
  exists slide,
    build_slide inp layout_idx accent prs title_str cards_subset (img :: rest)
      (Some cfg) log
    = (Ok (mkPrs (slide_layouts prs) (slides prs ++ [slide])),
       log ++ chart_warning
                (chart_format (chart_kind (cfg_type cfg)) cats (cfg_series cfg)
                   vals))
    /\ charts slide = [chart_of cfg cats vals]
    /\ pictures slide = [Picture 50 630 (Some 1150%Z) None png]
    /\ rendered_cards slide = take 4 cards_subset.
Proof.
  intros Hcats Hvals Hadd Hembed.
  destruct (build_slide_spec inp layout_idx accent title_str cards_subset
              (img :: rest) (Some cfg)) as (slide & w & HB & Hrun).
  destruct (Built_chart_placed _ _ _ _ _ _ _ _ _ _ _ HB Hcats Hvals Hadd)
    as (Hchart & iw & -> & Hi).
  assert (Hpic : pictures slide = [Picture 50 630 (Some 1150%Z) None png]
                 /\ iw = []).
  { destruct Hi as [Hn|i r p Hs Hp|i r e Hs Hr]; try done;
      injection Hs as <- <-; rewrite Hembed in *; try done.
    by injection Hp as <-. }
  destruct Hpic as [Hpic ->]. rewrite app_nil_r in Hrun.
  exists slide. split_and!; try done.
  by eapply Built_rendered_cards.
Qed.

(** ** The bounds of the card grid *)

(** The card loop returns exactly when the cards fit the grid slots that are
    left: a card with no slot raises the index error of [grid_positions[idx]].
    The slice [cards_subset[:4]] of [build_slide] is what keeps the loop
    within the four slots. *)
Theorem card_loop_returns_iff_cards_fit (accent : RGB) (cs : list Card) :
  forall (idx : nat) (slide : Slide),
    (exists slide', card_loop accent idx cs slide = Ok slide')
    <-> cs = [] \/ idx + length cs <= 4.
Proof.
  induction cs as [|c cs IH]; intros idx slide.
  - split; [by left|]. intros _. by exists slide.
  - split.
    + intros [slide' Hrun]. right. cbn [card_loop length] in *.
      destruct (grid_positions !! idx) as [[left_in top_in]|] eqn:Hp; [|done].
      apply lookup_lt_Some in Hp. change (length grid_positions) with 4 in Hp.
      assert (Hrest : cs = [] \/ S idx + length cs <= 4).
      { eapply IH. exists slide'. exact Hrun. }
      destruct Hrest as [->|Hrest]; cbn; lia.
    + intros [Hnil|Hfit]; [done|].
      destruct (card_loop_spec accent (c :: cs) idx slide Hfit)
        as (added & Hrun & _).
      by eexists.
Qed.

(** ** Failures: what is caught, and what ends the run *)

(** A data file whose parsing raises yields no table and the one warning that
    quotes the exception; in the loading loop the files before and after it
    load as they do without it: the same tables, the same warnings, with the
    one warning in between. *)
Theorem parse_failure_becomes_warning (f : UploadedFile) (e : string) :
  read_table f = Raise e ->
  (forall log,
     load_table f log
     = (Ok None,
        log ++ [Warning ("Could not read " +:+ file_name f +:+ ": " +:+ e)]))
  /\ forall before after,
       exists ts1 w1 ts2 w2,
         (forall acc log, load_tables before acc log = (Ok (acc ++ ts1), log ++ w1))
         /\ (forall acc log, load_tables after acc log = (Ok (acc ++ ts2), log ++ w2))
         /\ (forall acc log,
               load_tables (before ++ f :: after) acc log
               = (Ok (acc ++ ts1 ++ ts2),
                  log ++ w1
                  ++ [Warning ("Could not read " +:+ file_name f +:+ ": " +:+ e)]
                  ++ w2))
         /\ (forall acc log,
               load_tables (before ++ after) acc log
               = (Ok (acc ++ ts1 ++ ts2), log ++ w1 ++ w2)).
Proof.
  intros Hraise.
  assert (Hf : forall log,
             load_table f log
             = (Ok None,
                log ++ [Warning ("Could not read " +:+ file_name f +:+ ": " +:+ e)])).
  { intros log. by rewrite load_table_spec, Hraise. }
  split; [exact Hf|]. by apply load_tables_skip.
Qed.

(** When the first image of the subset cannot be opened or saved, the slide
    gets the one warning that quotes the exception and no picture; its cards
    and its chart block are as usual, and no other image is tried in its
    place. *)
Theorem image_failure_becomes_warning inp layout_idx accent prs title_str
    cards_subset img rest chart_cfg e log :
  embed img = Raise e ->
  exists slide cw,
    build_slide inp layout_idx accent prs title_str cards_subset (img :: rest)
      chart_cfg log
    = (Ok (mkPrs (slide_layouts prs) (slides prs ++ [slide])),
       log ++ cw
       ++ [Warning ("Could not embed " +:+ file_name img +:+ ": " +:+ e)])
    /\ pictures slide = []
    /\ rendered_cards slide = take 4 cards_subset
    /\ ChartOutcome chart_cfg (charts slide) cw.
Proof.
  intros Hraise.
  destruct (build_slide_spec inp layout_idx accent title_str cards_subset
              (img :: rest) chart_cfg) as (slide & w & HB & Hrun).
  destruct (Built_outcomes _ _ _ _ _ _ _ _ _ HB) as (cw & iw & -> & Hc & Hi).
  destruct (ImageOutcome_failed _ _ e _ _ Hi Hraise) as [Hnone ->].
  exists slide, cw. split_and!; try done.
  by eapply Built_rendered_cards.
Qed.

(** When a column conversion or the construction of the chart shape raises,
    the slide gets the one warning that quotes the exception and no chart;
    its cards and its image block are as usual. *)
Theorem early_chart_failure_leaves_no_chart inp layout_idx accent prs title_str
    cards_subset imgs_subset cfg e log :
  (column_as_str (cfg_df cfg) (cfg_x cfg) = Raise e
   \/ (exists cats,
         column_as_str (cfg_df cfg) (cfg_x cfg) = Ok cats
         /\ column_as_float (cfg_df cfg) (cfg_y cfg) = Raise e)
   \/ (exists cats vals,
         column_as_str (cfg_df cfg) (cfg_x cfg) = Ok cats
         /\ column_as_float (cfg_df cfg) (cfg_y cfg) = Ok vals
         /\ shapes_add_chart (chart_kind (cfg_type cfg)) cats (cfg_series cfg) vals
            = Raise e)) ->
  exists slide iw,
    build_slide inp layout_idx accent prs title_str cards_subset imgs_subset
      (Some cfg) log
    = (Ok (mkPrs (slide_layouts prs) (slides prs ++ [slide])),
       log ++ Warning ("Chart could not be added: " +:+ e) :: iw)
    /\ charts slide = []
    /\ rendered_cards slide = take 4 cards_subset
    /\ ImageOutcome imgs_subset (pictures slide) iw.
Proof.
  intros Hearly.
  destruct (build_slide_spec inp layout_idx accent title_str cards_subset
              imgs_subset (Some cfg)) as (slide & w & HB & Hrun).
  destruct (Built_chart_early _ _ _ _ _ _ _ e _ _ HB) as (Hnone & iw & -> & Hi).
  { intros s. by apply add_chart_early. }
  exists slide, iw. split_and!; try done.
  by eapply Built_rendered_cards.
Qed.

(** The preview raises the exception of the first screenshot that [st.image]
    cannot show. *)
Lemma preview_raises (imgs : list UploadedFile) (e : string) :
  preview imgs = Raise e ->
  exists before f after,
    imgs = before ++ f :: after
    /\ Forall (fun g => st_image g = Ok tt) before
    /\ st_image f = Raise e.
Proof.
  induction imgs as [|f imgs IH]; [done|].
  cbn [preview]. unfold mbind, result_bind.
  destruct (st_image f) as [[]|e'] eqn:Hf.
  - intros Hrest. destruct (IH Hrest) as (before & g & after & -> & Hok & Hg).
    exists (f :: before), g, after. split_and!; [done| |done].
    by constructor.
  - intros [= ->]. by exists [], f, imgs.
Qed.

(** [st.image] is under no [try]: when it raises on an uploaded screenshot,
    the run ends there, whether "Generate PPTX" was pressed or not.  The run
    shows the exception behind the warnings of the table loader and gives no
    presentation and no download; the queue keeps the card of the form. *)
Theorem unreadable_screenshot_ends_run (inp : Inputs) (session_cards : list Card)
    (log : list UiEvent) (e : string) :
  preview (screenshots inp) = Raise e ->
  (exists before f after,
     screenshots inp = before ++ f :: after
     /\ Forall (fun g => st_image g = Ok tt) before
     /\ st_image f = Raise e)
  /\ exists ts tw,
       (forall acc l,
          load_tables (data_files inp) acc l = (Ok (acc ++ ts), l ++ tw))
       /\ forallb is_warning tw = true
       /\ script inp session_cards log
          = (Ok (queue_card inp session_cards, None), log ++ tw ++ [Uncaught e]).
Proof.
  intros Hprev. split; [by apply preview_raises|].
  destruct (script_preview_raises inp e Hprev) as (ts & tw & Hw & Hload & Hrun).
  by exists ts, tw.
Qed.


End Facts.

(** * Concrete runs

    The claims on the sample library: the hypotheses of each theorem hold at
    an input, and the claims that fail as stated fail at one. *)
Module Runs.
Import Sample.

(** The presentation of a run, by computation. *)
Ltac compute_prs H prs :=
  let Hp := fresh "Hp" in
  let Hq := fresh "Hq" in
  pose proof (f_equal fst H) as Hp; vm_compute in Hp;
  match type of Hp with
  | Ok ?c = Ok prs => assert (Hq : prs = c) by congruence
  | Ok (_, Some ?c) = Ok (_, Some prs) => assert (Hq : prs = c) by congruence
  end;
  clear Hp; subst prs.

(** The events [w] of a run that come before its download, by computation. *)
Ltac compute_log H w ws :=
  let Hl := fresh "Hl" in
  pose proof (f_equal snd H) as Hl; vm_compute in Hl;
  apply (app_inv_tail _ ws w) in Hl; subst w.

Lemma C2_witness :
  Forall (fun r => add_card r = true) (map add (take 5 keys10))
  /\ add_card (generate 1 []) = false
  /\ generate_clicked (generate 1 []) = true
  /\ max_slides (generate 1 []) = 1%Z
  /\ preview (screenshots (generate 1 [])) = Ok tt
  /\ data_files (generate 1 []) = []
  /\ screenshots (generate 1 []) = []
  /\ exists prs log' slide,
       session (map add (take 5 keys10) ++ [generate 1 []]) [] []
       = (Ok (map card ["1"; "2"; "3"; "4"; "5"], Some prs), log')
       /\ generated_slides (generate 1 []) prs = [slide]
       /\ rendered_cards slide = map card ["1"; "2"; "3"; "4"]
       /\ length (rendered_cards slide) = 4
       /\ script (generate 1 []) (map card ["1"; "2"; "3"; "4"]) []
          = (Ok (map card ["1"; "2"; "3"; "4"], Some prs), log')
       /\ log' = download (generate 1 []) prs.
Proof.
  assert (Hadds : Forall (fun r => add_card r = true) (map add (take 5 keys10)))
    by (repeat constructor).
  split; [exact Hadds|]. do 6 (split; [reflexivity|]).
  destruct (C2_one_slide_min_cards (map add (take 5 keys10)) (generate 1 []) []
              Hadds eq_refl eq_refl eq_refl eq_refl)
    as (prs & log' & slide & out0 & before & Hrun & Hone & Hcards & Hlen & Hfirst
        & _ & Hfour & Hsilent).
  apply (f_equal snd) in Hfirst. vm_compute in Hfirst. subst before.
  exists prs, log', slide. split; [exact Hrun|]. split; [exact Hone|].
  split; [exact Hcards|]. split; [exact Hlen|]. split; [exact Hfour|].
  exact (Hsilent eq_refl eq_refl).
Defined.

Lemma C3_witness :
  length (map add (take 6 keys10)) = 6
  /\ Forall (fun r => add_card r = true) (map add (take 6 keys10))
  /\ screenshots (generate 2 []) = []
  /\ max_slides (generate 2 []) = 2%Z
  /\ exists prs log' s1 s2,
       session (map add (take 6 keys10) ++ [generate 2 []]) [] []
       = (Ok (map form_card (map add (take 6 keys10)), Some prs), log')
       /\ generated_slides (generate 2 []) prs = [s1; s2]
       /\ rendered_cards s1 ++ rendered_cards s2
          = map form_card (map add (take 6 keys10))
       /\ length (rendered_cards s1) + length (rendered_cards s2) = 6
       /\ length (rendered_cards s1) <= 4
       /\ length (rendered_cards s2) <= 4.
Proof.
  assert (Hadds : Forall (fun r => add_card r = true) (map add (take 6 keys10)))
    by (repeat constructor).
  split; [reflexivity|]. split; [exact Hadds|]. do 2 (split; [reflexivity|]).
  apply (C3_six_cards_two_slides (map add (take 6 keys10)) (generate 2 []) []);
    [reflexivity | exact Hadds | reflexivity..].
Defined.

(** Six cards and no image: two slides are produced, and the split is four
    cards and two cards, which differ in number by two. *)
Lemma C4_counterexample :
  use_two_slides (length (take 6 cards10)) 0 2 = true
  /\ split_assets (use_two_slides (length (take 6 cards10)) 0 2)
       (take 6 cards10) (@nil UploadedFile)
     = ((map card ["1"; "2"; "3"; "4"], map card ["5"; "6"]), ([], []))
  /\ (exists prs log s1 s2,
        generate_pptx (generate 2 []) (take 6 cards10) no_mapping [] = (Ok prs, log)
        /\ generated_slides (generate 2 []) prs = [s1; s2]
        /\ rendered_cards s1 = map card ["1"; "2"; "3"; "4"]
        /\ rendered_cards s2 = map card ["5"; "6"])
  /\ ~ (length (map card ["1"; "2"; "3"; "4"])
        <= length (map card ["5"; "6"]) + 1).
Proof.
  split; [reflexivity|]. split; [reflexivity|]. split.
  - eexists _, _, _, _. split; [vm_compute; reflexivity|].
    split; [vm_compute; reflexivity|]. split; reflexivity.
  - cbn. lia.
Qed.

Lemma C4_witness :
  use_two_slides (length cards10) (length (screenshots (generate 2 [])))
    (max_slides (generate 2 [])) = true
  /\ exists layout_idx prs log' s1 w1 s2 w2,
       generate_pptx (generate 2 []) cards10 no_mapping [] = (Ok prs, log')
       /\ generated_slides (generate 2 []) prs = [s1; s2]
       /\ Built (generate 2 []) layout_idx (accent_color (generate 2 []))
            (title_text (generate 2 [])) (take 5 cards10) [] None s1 w1
       /\ Built (generate 2 []) layout_idx (accent_color (generate 2 []))
            (title_text (generate 2 []) +:+ " (cont.)") (drop 5 cards10) [] None
            s2 w2.
Proof.
  split; [reflexivity|].
  destruct (C4_split_by_position (generate 2 []) cards10 no_mapping [] eq_refl)
    as (li & prs & log' & s1 & w1 & s2 & w2 & Hrun & Hgen & HB1 & HB2 & _).
  by exists li, prs, log', s1, w1, s2, w2.
Defined.

(** A chart over the columns month and total: the chart is drawn, its
    formatting raises, and the slide carries the chart along with the warning
    that it could not be added. *)
Lemma C6_witness :
  column_as_str (cfg_df line_cfg) (cfg_x line_cfg) = Ok ["month"]
  /\ column_as_float (cfg_df line_cfg) (cfg_y line_cfg) = Ok [0%Z]
  /\ shapes_add_chart (chart_kind (cfg_type line_cfg)) ["month"]
       (cfg_series line_cfg) [0%Z] = Ok tt
  /\ chart_format (chart_kind (cfg_type line_cfg)) ["month"]
       (cfg_series line_cfg) [0%Z]
     = Raise "'Chart' object has no attribute 'chart_area'"
  /\ exists slide,
       build_slide (generate 2 []) 6 PRIMARY (mkPrs 11 []) "Summary"
         (take 2 cards10) [] (Some line_cfg) []
       = (Ok (mkPrs 11 [slide]),
          [Warning
             "Chart could not be added: 'Chart' object has no attribute 'chart_area'"])
       /\ charts slide
          = [ChartFrame LINE_MARKERS (50, 630, 1150, 230)%Z ["month"] "total"
               [0%Z]]
       /\ rendered_cards slide = take 2 cards10.
Proof.
  assert (Hcats : column_as_str (cfg_df line_cfg) (cfg_x line_cfg) = Ok ["month"])
    by reflexivity.
  assert (Hvals : column_as_float (cfg_df line_cfg) (cfg_y line_cfg) = Ok [0%Z])
    by reflexivity.
  assert (Hadd : shapes_add_chart (chart_kind (cfg_type line_cfg)) ["month"]
                   (cfg_series line_cfg) [0%Z] = Ok tt) by reflexivity.
  assert (Hfmt : chart_format (chart_kind (cfg_type line_cfg)) ["month"]
                   (cfg_series line_cfg) [0%Z]
                 = Raise "'Chart' object has no attribute 'chart_area'")
    by reflexivity.
  split; [exact Hcats|]. split; [exact Hvals|]. split; [exact Hadd|].
  split; [exact Hfmt|].
  destruct (C6_late_chart_failure_keeps_chart (generate 2 []) 6 PRIMARY
              (mkPrs 11 []) "Summary" (take 2 cards10) [] line_cfg
              ["month"] [0%Z] _ [] Hcats Hvals Hadd Hfmt)
    as (slide & iw & Hrun & Hchart & Hcards & Hi).
  assert (Hiw : iw = []) by (by destruct Hi).
  subst iw. by exists slide.
Defined.

Lemma C7_witness :
  supported_extension (file_name notes_txt) = false
  /\ load_table notes_txt []
     = (Ok None, [Warning "Unsupported table file: notes.txt"])
  /\ load_tables [sales_csv; notes_txt; sales_csv] [] []
     = (Ok [["month,total"]; ["month,total"]],
        [Warning "Unsupported table file: notes.txt"])
  /\ load_tables [sales_csv; sales_csv] [] []
     = (Ok [["month,total"]; ["month,total"]], []).
Proof.
  split; [reflexivity|].
  destruct (C7_unsupported_extension notes_txt eq_refl) as [Hload Hloop].
  split; [exact (Hload [])|]. split; reflexivity.
Defined.

Lemma C9_witness :
  with_auto_crop false (generate 2 [])
  = with_auto_crop false (with_auto_crop false (generate 2 []))
  /\ script (generate 2 []) cards10 []
     = script (with_auto_crop false (generate 2 [])) cards10 [].
Proof.
  split; [reflexivity|].
  exact (proj1 (C9_auto_crop_has_no_effect (generate 2 [])
                  (with_auto_crop false (generate 2 [])) cards10 [] eq_refl)).
Defined.

(** Ten cards on two slides: the first shows cards 1 to 4, the second cards 6
    to 9.  Card 10, the last of the queue, is on neither, and the positions 5
    to [max 4 (ceil (10/2))] of the first subset hold card 5 alone. *)
Lemma C10_counterexample :
  exists prs log s1 s2,
    generate_pptx (generate 2 []) cards10 no_mapping [] = (Ok prs, log)
    /\ generated_slides (generate 2 []) prs = [s1; s2]
    /\ rendered_cards s1 = map card ["1"; "2"; "3"; "4"]
    /\ rendered_cards s2 = map card ["6"; "7"; "8"; "9"]
    /\ last cards10 = Some (card "10")
    /\ ~ In (card "10") (rendered_cards s1 ++ rendered_cards s2)
    /\ drop 4 (take (Nat.max 4 ((length cards10 + 1) / 2)) cards10) = [card "5"].
Proof.
  eexists _, _, _, _. split; [vm_compute; reflexivity|].
  split; [vm_compute; reflexivity|]. split; [reflexivity|].
  split; [reflexivity|]. split; [reflexivity|]. split; [|reflexivity].
  cbn. intros Hin. repeat (destruct Hin as [Hin|Hin]; [discriminate Hin|]).
  exact Hin.
Qed.

Lemma C10_witness :
  8 < length cards10
  /\ (2 <= max_slides (generate 2 []))%Z
  /\ exists prs log',
       generate_pptx (generate 2 []) cards10 no_mapping [] = (Ok prs, log')
       /\ concat (map rendered_cards (generated_slides (generate 2 []) prs))
          = map card ["1"; "2"; "3"; "4"; "6"; "7"; "8"; "9"]
       /\ cards10
          = map card ["1"; "2"; "3"; "4"] ++ [card "5"]
            ++ map card ["6"; "7"; "8"; "9"] ++ [card "10"].
Proof.
  assert (Hmany : 8 < length cards10) by (cbn; lia).
  assert (Hmax : (2 <= max_slides (generate 2 []))%Z) by (cbn; lia).
  split; [exact Hmany|]. split; [exact Hmax|].
  destruct (C10_rendered_and_dropped (generate 2 []) cards10 no_mapping [])
    as (prs & log' & Hrun & _ & _ & Hsplit & _).
  destruct (Hsplit Hmany Hmax) as (Hshown & Hqueue & _ & _ & _).
  exists prs, log'. split; [exact Hrun|]. split; [exact Hshown|reflexivity].
Defined.

Lemma dropped_cards_witness :
  length cards10 = length cards10'
  /\ take 4 cards10 = take 4 cards10'
  /\ take 4 (drop (Nat.max 4 ((length cards10 + 1) / 2)) cards10)
     = take 4 (drop (Nat.max 4 ((length cards10 + 1) / 2)) cards10')
  /\ cards10 <> cards10'
  /\ generate_pptx (generate 2 []) cards10 no_mapping []
     = generate_pptx (generate 2 []) cards10' no_mapping [].
Proof.
  do 3 (split; [reflexivity|]). split; [discriminate|].
  exact (dropped_cards_leave_no_trace (generate 2 []) cards10 cards10'
           no_mapping [] eq_refl eq_refl eq_refl).
Defined.

(** Four screenshots that the preview shows: the second and the fourth cannot
    be embedded, and neither the handler nor the run says so. *)
Lemma other_images_witness :
  length [ok_png "a"; cut_png; ok_png "c"; cut_png]
  = length [ok_png "a"; ok_png "b"; ok_png "c"; ok_png "d"]
  /\ preview [ok_png "a"; cut_png; ok_png "c"; cut_png] = Ok tt
  /\ preview [ok_png "a"; ok_png "b"; ok_png "c"; ok_png "d"] = Ok tt
  /\ embed cut_png = Raise "image file is truncated"
  /\ generate_pptx
       (with_screenshots [ok_png "a"; cut_png; ok_png "c"; cut_png]
          (generate 2 [])) cards10 no_mapping []
     = generate_pptx
         (with_screenshots [ok_png "a"; ok_png "b"; ok_png "c"; ok_png "d"]
            (generate 2 [])) cards10 no_mapping []
  /\ script
       (with_screenshots [ok_png "a"; cut_png; ok_png "c"; cut_png]
          (generate 2 [])) cards10 []
     = script
         (with_screenshots [ok_png "a"; ok_png "b"; ok_png "c"; ok_png "d"]
            (generate 2 [])) cards10 [].
Proof.
  do 4 (split; [reflexivity|]).
  destruct (other_images_leave_no_trace (generate 2 [])
              [ok_png "a"; cut_png; ok_png "c"; cut_png]
              [ok_png "a"; ok_png "b"; ok_png "c"; ok_png "d"]
              cards10 no_mapping [] eq_refl eq_refl eq_refl)
    as [Hhandler Hrun].
  split; [exact Hhandler|]. exact (Hrun eq_refl eq_refl).
Defined.

(** No mapping and one screenshot that cannot be embedded: two slides without
    a chart, and the one warning about the image. *)
Lemma no_chart_mapping_witness :
  make_chart_cfg (generate 2 [cut_png]) no_mapping = None
  /\ exists prs,
       generate_pptx (generate 2 [cut_png]) cards10 no_mapping []
       = (Ok prs,
          Warning "Could not embed cut.png: image file is truncated"
          :: download (generate 2 [cut_png]) prs)
       /\ Forall (fun s => charts s = [])
            (generated_slides (generate 2 [cut_png]) prs).
Proof.
  split; [reflexivity|].
  destruct (proj2 (no_chart_mapping_no_chart (generate 2 [cut_png]) cards10
                     no_mapping []) eq_refl)
    as (prs & w & Hrun & Hnone & _).
  compute_prs Hrun prs.
  compute_log Hrun w [Warning "Could not embed cut.png: image file is truncated"].
  eexists. split; [exact Hrun|exact Hnone].
Defined.

Lemma no_data_file_witness :
  data_files (generate 2 []) = []
  /\ generate_clicked (generate 2 []) = true
  /\ preview (screenshots (generate 2 [])) = Ok tt
  /\ exists prs log',
       script (generate 2 []) cards10 [] = (Ok (cards10, Some prs), log')
       /\ Forall (fun s => charts s = []) (generated_slides (generate 2 []) prs).
Proof.
  do 3 (split; [reflexivity|]).
  exact (no_data_file_no_chart (generate 2 []) cards10 [] eq_refl eq_refl eq_refl).
Defined.

(** The chart over month and total: [add_chart] raises in the formatting, the
    chart is on the slide, and the notes describe it. *)
Lemma failed_chart_notes_witness :
  add_chart (mkSlide 0 [] None) 50 630 1150 230 (cfg_df line_cfg)
    (cfg_x line_cfg) (cfg_y line_cfg) (cfg_type line_cfg) (cfg_series line_cfg)
  = (Raise "'Chart' object has no attribute 'chart_area'",
     mkSlide 0
       [ChartFrame LINE_MARKERS (50, 630, 1150, 230)%Z ["month"] "total" [0%Z]]
       None)
  /\ include_speaker_notes (generate 2 []) = true
  /\ exists slide log',
       build_slide (generate 2 []) 6 PRIMARY (mkPrs 11 []) "Summary"
         (take 1 cards10) [] (Some line_cfg) []
       = (Ok (mkPrs 11 [slide]), log')
       /\ charts slide
          = [ChartFrame LINE_MARKERS (50, 630, 1150, 230)%Z ["month"] "total"
               [0%Z]]
       /\ notes slide
          = Some ("- 1: 90% — " +:+ nl +:+ "- Chart: line of total by month").
Proof.
  assert (Hraise :
            add_chart (mkSlide 0 [] None) 50 630 1150 230 (cfg_df line_cfg)
              (cfg_x line_cfg) (cfg_y line_cfg) (cfg_type line_cfg)
              (cfg_series line_cfg)
            = (Raise "'Chart' object has no attribute 'chart_area'",
               mkSlide 0
                 [ChartFrame LINE_MARKERS (50, 630, 1150, 230)%Z ["month"]
                    "total" [0%Z]]
                 None)) by reflexivity.
  split; [exact Hraise|]. split; [reflexivity|].
  destruct (failed_chart_stays_in_notes (generate 2 []) 6 PRIMARY (mkPrs 11 [])
              "Summary" (take 1 cards10) [] line_cfg (mkSlide 0 [] None) _ _ []
              Hraise eq_refl)
    as (slide & iw & Hrun & Hshapes & _ & Hnotes).
  eexists slide, _. split; [exact Hrun|]. cbn [shapes app] in Hshapes.
  split; [by rewrite <- Hshapes|].
  rewrite Hnotes. cbv in Hrun. injection Hrun as <- _. reflexivity.
Defined.

(** Six cards on a template with two layouts: the slides use the layout 0,
    begin with its title placeholder, and are titled by their first text
    box. *)
Lemma slide_titles_witness :
  exists prs log' s1 s2,
    generate_pptx (with_template brand_pptx (generate 2 [])) (take 6 cards10)
      no_mapping []
    = (Ok prs, log')
    /\ generated_slides (with_template brand_pptx (generate 2 [])) prs = [s1; s2]
    /\ layout s1 = 0 /\ layout s2 = 0
    /\ take 1 (shapes s1) = [Placeholder "Title 1"]
    /\ map slide_title [s1; s2]
       = [Some "Executive KPI Summary"; Some "Executive KPI Summary (cont.)"]
    /\ map rendered_cards [s1; s2]
       = [map card ["1"; "2"; "3"; "4"]; map card ["5"; "6"]].
Proof.
  destruct (generated_slide_titles (with_template brand_pptx (generate 2 []))
              (take 6 cards10) no_mapping [])
    as (prs & log' & Hrun & Htitles).
  compute_prs Hrun prs. vm_compute in Htitles.
  eexists _, _, _, _. split; [exact Hrun|].
  split; [vm_compute; reflexivity|]. do 3 (split; [reflexivity|]).
  split; [exact Htitles|reflexivity].
Defined.

Lemma layout_index_witness :
  0 < slide_layouts
        (create_presentation (file_bytes <$> template_file (generate 2 [])))
  /\ exists prs log',
       generate_pptx (generate 2 []) cards10 no_mapping [] = (Ok prs, log')
       /\ slide_layouts prs = 11
       /\ Forall (fun s => layout s = 6 /\ layout s < slide_layouts prs)
            (generated_slides (generate 2 []) prs).
Proof.
  assert (Hpos : 0 < slide_layouts
                       (create_presentation
                          (file_bytes <$> template_file (generate 2 []))))
    by (cbn; lia).
  split; [exact Hpos|].
  exact (layout_index_in_range (generate 2 []) cards10 no_mapping [] Hpos).
Defined.

Lemma table_label_witness :
  data_files (inputs [broken_csv; sales_csv] [] 2 "" false true)
  = [broken_csv; sales_csv]
  /\ read_table broken_csv = Raise "No columns to parse from file"
  /\ read_table sales_csv = Ok (Some ["month,total"])
  /\ exists ts w,
       load_tables (data_files (inputs [broken_csv; sales_csv] [] 2 "" false true))
         [] []
       = (Ok (["month,total"] :: ts), w)
       /\ table_label (inputs [broken_csv; sales_csv] [] 2 "" false true) 0
          = Ok "Broken.CSV".
Proof.
  do 3 (split; [reflexivity|]).
  destruct (@table_label_names_failed_file media library
              (inputs [broken_csv; sales_csv] [] 2 "" false true)
              broken_csv sales_csv [] ["month,total"] eq_refl
              (or_intror (ex_intro _ _ eq_refl)) eq_refl)
    as (ts & w & Hload & Hlabel & _).
  by exists ts, w.
Defined.

Lemma file_name_case_witness :
  lower (file_name (mkFile "Sales.CSV" "month,total")) = lower (file_name sales_csv)
  /\ file_bytes (mkFile "Sales.CSV" "month,total") = file_bytes sales_csv
  /\ read_table (mkFile "Sales.CSV" "month,total") = read_table sales_csv.
Proof.
  do 2 (split; [reflexivity|]).
  exact (proj1 (file_name_case_is_ignored (mkFile "Sales.CSV" "month,total")
                  sales_csv eq_refl eq_refl)).
Defined.

(** The chart over month and total and a screenshot that embeds: the slide
    carries both, and the log the warning of the formatting. *)
Lemma chart_and_image_witness :
  column_as_str (cfg_df line_cfg) (cfg_x line_cfg) = Ok ["month"]
  /\ column_as_float (cfg_df line_cfg) (cfg_y line_cfg) = Ok [0%Z]
  /\ shapes_add_chart (chart_kind (cfg_type line_cfg)) ["month"]
       (cfg_series line_cfg) [0%Z] = Ok tt
  /\ embed (ok_png "a") = Ok "PNG a"
  /\ exists slide,
       build_slide (generate 2 []) 6 PRIMARY (mkPrs 11 []) "Summary"
         (take 2 cards10) [ok_png "a"; cut_png] (Some line_cfg) []
       = (Ok (mkPrs 11 [slide]),
          [Warning
             "Chart could not be added: 'Chart' object has no attribute 'chart_area'"])
       /\ charts slide
          = [ChartFrame LINE_MARKERS (50, 630, 1150, 230)%Z ["month"] "total"
               [0%Z]]
       /\ pictures slide = [Picture 50 630 (Some 1150%Z) None "PNG a"].
Proof.
  assert (Hcats : column_as_str (cfg_df line_cfg) (cfg_x line_cfg) = Ok ["month"])
    by reflexivity.
  assert (Hvals : column_as_float (cfg_df line_cfg) (cfg_y line_cfg) = Ok [0%Z])
    by reflexivity.
  assert (Hadd : shapes_add_chart (chart_kind (cfg_type line_cfg)) ["month"]
                   (cfg_series line_cfg) [0%Z] = Ok tt) by reflexivity.
  assert (Hembed : embed (ok_png "a") = Ok "PNG a") by reflexivity.
  split; [exact Hcats|]. split; [exact Hvals|]. split; [exact Hadd|].
  split; [exact Hembed|].
  destruct (chart_and_image_placed (generate 2 []) 6 PRIMARY (mkPrs 11 [])
              "Summary" (take 2 cards10) (ok_png "a") [cut_png] line_cfg
              ["month"] [0%Z] "PNG a" [] Hcats Hvals Hadd Hembed)
    as (slide & Hrun & Hchart & Hpic & _).
  by exists slide.
Defined.

Lemma parse_failure_witness :
  read_table broken_csv = Raise "No columns to parse from file"
  /\ load_table broken_csv []
     = (Ok None,
        [Warning "Could not read Broken.CSV: No columns to parse from file"])
  /\ load_tables [sales_csv; broken_csv; sales_csv] [] []
     = (Ok [["month,total"]; ["month,total"]],
        [Warning "Could not read Broken.CSV: No columns to parse from file"]).
Proof.
  assert (Hraise : read_table broken_csv = Raise "No columns to parse from file")
    by reflexivity.
  split; [exact Hraise|].
  destruct (parse_failure_becomes_warning broken_csv _ Hraise) as [Hload _].
  split; [exact (Hload [])|reflexivity].
Defined.

Lemma image_failure_witness :
  embed cut_png = Raise "image file is truncated"
  /\ exists slide,
       build_slide (generate 2 []) 6 PRIMARY (mkPrs 11 []) "Summary"
         (take 2 cards10) [cut_png; ok_png "b"] None []
       = (Ok (mkPrs 11 [slide]),
          [Warning "Could not embed cut.png: image file is truncated"])
       /\ pictures slide = [] /\ rendered_cards slide = take 2 cards10.
Proof.
  assert (Hraise : embed cut_png = Raise "image file is truncated")
    by reflexivity.
  split; [exact Hraise|].
  destruct (image_failure_becomes_warning (generate 2 []) 6 PRIMARY (mkPrs 11 [])
              "Summary" (take 2 cards10) cut_png [ok_png "b"] None _ [] Hraise)
    as (slide & cw & Hrun & Hnone & Hcards & Hc).
  assert (Hcw : cw = []) by (by destruct Hc).
  subst cw. by exists slide.
Defined.

Lemma early_chart_failure_witness :
  column_as_str (cfg_df bad_cfg) (cfg_x bad_cfg) = Ok ["month"]
  /\ column_as_float (cfg_df bad_cfg) (cfg_y bad_cfg)
     = Raise "could not convert string to float"
  /\ exists slide,
       build_slide (generate 2 []) 6 PRIMARY (mkPrs 11 []) "Summary"
         (take 2 cards10) [] (Some bad_cfg) []
       = (Ok (mkPrs 11 [slide]),
          [Warning "Chart could not be added: could not convert string to float"])
       /\ charts slide = [] /\ rendered_cards slide = take 2 cards10.
Proof.
  assert (Hcats : column_as_str (cfg_df bad_cfg) (cfg_x bad_cfg) = Ok ["month"])
    by reflexivity.
  assert (Hvals : column_as_float (cfg_df bad_cfg) (cfg_y bad_cfg)
                  = Raise "could not convert string to float") by reflexivity.
  split; [exact Hcats|]. split; [exact Hvals|].
  destruct (early_chart_failure_leaves_no_chart (generate 2 []) 6 PRIMARY
              (mkPrs 11 []) "Summary" (take 2 cards10) [] bad_cfg _ []
              (or_intror (or_introl (ex_intro _ _ (conj Hcats Hvals)))))
    as (slide & iw & Hrun & Hnone & Hcards & Hi).
  assert (Hiw : iw = []) by (by destruct Hi).
  subst iw. by exists slide.
Defined.

(** A screenshot with no bytes and "Generate PPTX" pressed: the run ends in
    the preview, and there is no presentation. *)
Lemma unreadable_screenshot_witness :
  preview (screenshots (inputs [broken_csv] [ok_png "a"; broken_png] 2 "" true true))
  = Raise "cannot identify image file"
  /\ script (inputs [broken_csv] [ok_png "a"; broken_png] 2 "" true true)
       (take 2 cards10) []
     = (Ok (take 2 cards10 ++ [mkCard "" "90%" ""], None),
        [Warning "Could not read Broken.CSV: No columns to parse from file";
         Uncaught "cannot identify image file"]).
Proof.
  assert (Hprev : preview (screenshots (inputs [broken_csv]
                                          [ok_png "a"; broken_png] 2 "" true true))
                  = Raise "cannot identify image file") by reflexivity.
  split; [exact Hprev|].
  destruct (unreadable_screenshot_ends_run
              (inputs [broken_csv] [ok_png "a"; broken_png] 2 "" true true)
              (take 2 cards10) [] _ Hprev)
    as (_ & ts & tw & Hload & _ & Hrun).
  rewrite Hrun. specialize (Hload [] []). vm_compute in Hload.
  by injection Hload as _ <-.
Defined.


End Runs.
